(** * pyaarlo backend: session store, request executor, event router,
      transaction correlator and event supervisor

    A shallow embedding of [src/pyaarlo/backend.py] (class [ArloBackEnd]).
    Python values are an inductive type, dictionaries that are iterated keep
    their insertion order (association lists; [_requests] is one of them,
    the pattern loop of [_event_handle_response] walks it), the registry
    [_callbacks], which is only looked up, is a finite map, exceptions are
    explicit results, and what another thread or the server does is an
    explicit argument of the function that observes it. *)

From Stdlib Require Import ZArith Ascii.
From stdpp Require Import gmap strings list fin_maps.

#[local] Set Warnings "-register-all".
#[local] Open Scope Z_scope.

(** ** Python values *)

(** What [json.loads] and [pickle.load] hand to the backend.  Floats are not
    represented. *)
Inductive pyval :=
| PNone
| PBool (b : bool)
| PInt (z : Z)
| PStr (s : string)
| PList (l : list pyval)
| PDict (d : list (string * pyval)).

Abbreviation pydict := (list (string * pyval)).

Module Py.

(** [bool(v)]: the truth value of [v] in a condition. *)
Definition truthy (v : pyval) : bool :=
  match v with
  | PNone => false
  | PBool b => b
  | PInt z => negb (z =? 0)
  | PStr s => negb (String.eqb s "")
  | PList l => match l with [] => false | _ => true end
  | PDict d => match d with [] => false | _ => true end
  end.

Definition is_none (v : pyval) : bool :=
  match v with PNone => true | _ => false end.

(** [v == s] for a string literal [s]. *)
Definition eq_str (v : pyval) (s : string) : bool :=
  match v with PStr t => String.eqb t s | _ => false end.

(** [v == z] for an integer literal [z] ([True == 1] and [False == 0]). *)
Definition eq_int (v : pyval) (z : Z) : bool :=
  match v with
  | PInt y => y =? z
  | PBool b => (if b then 1 else 0) =? z
  | _ => false
  end.

(** [s.startswith(p)] *)
Definition startswith (s p : string) : bool := Stdlib.Strings.String.prefix p s.

(** [p in s] for two strings. *)
Definition contains (p s : string) : bool :=
  match Stdlib.Strings.String.index 0 p s with Some _ => true | None => false end.

(** [s.split(c)] for a one-character separator. *)
Fixpoint split (c : ascii) (s : string) : list string :=
  match s with
  | EmptyString => [EmptyString]
  | String a s' =>
      if Ascii.eqb a c then EmptyString :: split c s'
      else match split c s' with
           | [] => [String a EmptyString]
           | w :: ws => String a w :: ws
           end
  end.

Fixpoint has_char (c : ascii) (s : string) : bool :=
  match s with
  | EmptyString => false
  | String a s' => Ascii.eqb a c || has_char c s'
  end.

(** The text of [s] up to its first [c] (all of [s] when there is none). *)
Fixpoint upto (c : ascii) (s : string) : string :=
  match s with
  | EmptyString => EmptyString
  | String a s' => if Ascii.eqb a c then EmptyString else String a (upto c s')
  end.

End Py.

(** ** Dictionaries with insertion order *)

Module Dict.
Section ops.
Context {V : Type}.

(** [d.get(k)] as an option: the value of the first (only) entry of [k]. *)
Fixpoint get (k : string) (d : list (string * V)) : option V :=
  match d with
  | [] => None
  | (k', v) :: d' => if String.eqb k' k then Some v else get k d'
  end.

(** [k in d] *)
Definition mem (k : string) (d : list (string * V)) : bool :=
  match get k d with Some _ => true | None => false end.

(** [d.get(k, dflt)] *)
Definition get_default (k : string) (dflt : V) (d : list (string * V)) : V :=
  match get k d with Some v => v | None => dflt end.

(** [d[k] = v]: an existing key keeps its place, a new one goes last. *)
Fixpoint set (k : string) (v : V) (d : list (string * V)) : list (string * V) :=
  match d with
  | [] => [(k, v)]
  | (k', v') :: d' =>
      if String.eqb k' k then (k', v) :: d' else (k', v') :: set k v d'
  end.

(** [del d[k]]: a dictionary holds one entry per key, and no entry of [k]
    is left. *)
Fixpoint remove (k : string) (d : list (string * V)) : list (string * V) :=
  match d with
  | [] => []
  | (k', v') :: d' =>
      if String.eqb k' k then remove k d' else (k', v') :: remove k d'
  end.

(** [list(d.keys())] *)
Definition keys (d : list (string * V)) : list string := map fst d.
End ops.
End Dict.

(** [v[k]] for a string key [k]: [None] stands for the [KeyError] of a
    dictionary without [k] and for the [TypeError] of any other value. *)
Definition subscript (v : pyval) (k : string) : option pyval :=
  match v with
  | PDict d => Dict.get k d
  | _ => None
  end.

(** ** The state of the backend *)

(** The part of [self._arlo.cfg] the modelled methods read. *)
Record config := {
  save_session : bool;
  username : string;
  request_timeout : Z;
  event_backend : string;
  reconnect_every : Z;
}.

(** The identity attributes [_load_session] restores and [_save_session]
    persists. *)
Record session := {
  _user_id : pyval;
  _web_id : pyval;
  _sub_id : pyval;
  _token : pyval;
  _expires_in : pyval;
  _browser_auth_code : pyval;
  _user_device_id : pyval;
}.

(** A subscriber handle: [callback] arguments of [add_listener]. *)
Inductive callback := Callback (handle : nat).

Record backend := {
  cfg : config;
  _session_info : pydict;                    (* class attribute, a dict *)
  sess : session;
  _requests : pydict;                        (* PNone: registered, unresolved *)
  _callbacks : gmap string (list callback);
  _resource_types : list string;
  _use_mqtt : bool;
  _event_client : bool;                      (* false: [None] *)
  _event_connected : bool;
  _client_connected : option bool;           (* None: attribute not set yet *)
  _logged_in : bool;
  _stop_thread : bool;
}.

Definition with_session_info (i : pydict) (st : backend) : backend :=
  {| cfg := st.(cfg); _session_info := i; sess := st.(sess);
     _requests := st.(_requests); _callbacks := st.(_callbacks);
     _resource_types := st.(_resource_types); _use_mqtt := st.(_use_mqtt);
     _event_client := st.(_event_client);
     _event_connected := st.(_event_connected);
     _client_connected := st.(_client_connected);
     _logged_in := st.(_logged_in); _stop_thread := st.(_stop_thread) |}.

Definition with_sess (s : session) (st : backend) : backend :=
  {| cfg := st.(cfg); _session_info := st.(_session_info); sess := s;
     _requests := st.(_requests); _callbacks := st.(_callbacks);
     _resource_types := st.(_resource_types); _use_mqtt := st.(_use_mqtt);
     _event_client := st.(_event_client);
     _event_connected := st.(_event_connected);
     _client_connected := st.(_client_connected);
     _logged_in := st.(_logged_in); _stop_thread := st.(_stop_thread) |}.

Definition with_requests (r : pydict) (st : backend) : backend :=
  {| cfg := st.(cfg); _session_info := st.(_session_info); sess := st.(sess);
     _requests := r; _callbacks := st.(_callbacks);
     _resource_types := st.(_resource_types); _use_mqtt := st.(_use_mqtt);
     _event_client := st.(_event_client);
     _event_connected := st.(_event_connected);
     _client_connected := st.(_client_connected);
     _logged_in := st.(_logged_in); _stop_thread := st.(_stop_thread) |}.

Definition with_callbacks (c : gmap string (list callback)) (st : backend) : backend :=
  {| cfg := st.(cfg); _session_info := st.(_session_info); sess := st.(sess);
     _requests := st.(_requests); _callbacks := c;
     _resource_types := st.(_resource_types); _use_mqtt := st.(_use_mqtt);
     _event_client := st.(_event_client);
     _event_connected := st.(_event_connected);
     _client_connected := st.(_client_connected);
     _logged_in := st.(_logged_in); _stop_thread := st.(_stop_thread) |}.

Definition with_use_mqtt (b : bool) (st : backend) : backend :=
  {| cfg := st.(cfg); _session_info := st.(_session_info); sess := st.(sess);
     _requests := st.(_requests); _callbacks := st.(_callbacks);
     _resource_types := st.(_resource_types); _use_mqtt := b;
     _event_client := st.(_event_client);
     _event_connected := st.(_event_connected);
     _client_connected := st.(_client_connected);
     _logged_in := st.(_logged_in); _stop_thread := st.(_stop_thread) |}.

Definition with_event_client (b : bool) (st : backend) : backend :=
  {| cfg := st.(cfg); _session_info := st.(_session_info); sess := st.(sess);
     _requests := st.(_requests); _callbacks := st.(_callbacks);
     _resource_types := st.(_resource_types); _use_mqtt := st.(_use_mqtt);
     _event_client := b;
     _event_connected := st.(_event_connected);
     _client_connected := st.(_client_connected);
     _logged_in := st.(_logged_in); _stop_thread := st.(_stop_thread) |}.

Definition with_event_connected (b : bool) (st : backend) : backend :=
  {| cfg := st.(cfg); _session_info := st.(_session_info); sess := st.(sess);
     _requests := st.(_requests); _callbacks := st.(_callbacks);
     _resource_types := st.(_resource_types); _use_mqtt := st.(_use_mqtt);
     _event_client := st.(_event_client);
     _event_connected := b;
     _client_connected := st.(_client_connected);
     _logged_in := st.(_logged_in); _stop_thread := st.(_stop_thread) |}.

Definition with_client_connected (b : option bool) (st : backend) : backend :=
  {| cfg := st.(cfg); _session_info := st.(_session_info); sess := st.(sess);
     _requests := st.(_requests); _callbacks := st.(_callbacks);
     _resource_types := st.(_resource_types); _use_mqtt := st.(_use_mqtt);
     _event_client := st.(_event_client);
     _event_connected := st.(_event_connected);
     _client_connected := b;
     _logged_in := st.(_logged_in); _stop_thread := st.(_stop_thread) |}.

Definition with_logged_in (b : bool) (st : backend) : backend :=
  {| cfg := st.(cfg); _session_info := st.(_session_info); sess := st.(sess);
     _requests := st.(_requests); _callbacks := st.(_callbacks);
     _resource_types := st.(_resource_types); _use_mqtt := st.(_use_mqtt);
     _event_client := st.(_event_client);
     _event_connected := st.(_event_connected);
     _client_connected := st.(_client_connected);
     _logged_in := b; _stop_thread := st.(_stop_thread) |}.

(** ** Session store: [_load_session], [_save_session] *)

(** The session file: [None] when [open] or [pickle.load] raises (missing or
    corrupt file), otherwise the unpickled value. *)
Abbreviation session_file := (option pyval).

(** What becomes of the write in [_save_session]. *)
Inductive write_outcome :=
| Written      (* [open] and [pickle.dump] succeed *)
| OpenFailed   (* [open] raises: nothing was assigned, the file is as it was *)
| DumpFailed.  (* [pickle.dump] raises: the record was assigned and the file,
                  opened for writing, holds no complete pickle *)

Definition blank_session : session :=
  {| _user_id := PNone; _web_id := PNone; _sub_id := PNone; _token := PNone;
     _expires_in := PInt 0; _browser_auth_code := PNone;
     _user_device_id := PNone |}.

Definition empty_v2 : pydict := [("version", PStr "2")].

(** The assignments under [if session_info is not None], in order; the
    boolean says whether one of the subscripts raised, and the attributes
    assigned before it keep their new value. *)
Definition restore_fields (info : pyval) : session * bool :=
  let s := blank_session in
  match subscript info "user_id" with
  | None => (s, true)
  | Some v1 =>
  let s := {| _user_id := v1; _web_id := s.(_web_id); _sub_id := s.(_sub_id);
              _token := s.(_token); _expires_in := s.(_expires_in);
              _browser_auth_code := s.(_browser_auth_code);
              _user_device_id := s.(_user_device_id) |} in
  match subscript info "web_id" with
  | None => (s, true)
  | Some v2 =>
  let s := {| _user_id := s.(_user_id); _web_id := v2; _sub_id := s.(_sub_id);
              _token := s.(_token); _expires_in := s.(_expires_in);
              _browser_auth_code := s.(_browser_auth_code);
              _user_device_id := s.(_user_device_id) |} in
  match subscript info "sub_id" with
  | None => (s, true)
  | Some v3 =>
  let s := {| _user_id := s.(_user_id); _web_id := s.(_web_id); _sub_id := v3;
              _token := s.(_token); _expires_in := s.(_expires_in);
              _browser_auth_code := s.(_browser_auth_code);
              _user_device_id := s.(_user_device_id) |} in
  match subscript info "token" with
  | None => (s, true)
  | Some v4 =>
  let s := {| _user_id := s.(_user_id); _web_id := s.(_web_id);
              _sub_id := s.(_sub_id); _token := v4;
              _expires_in := s.(_expires_in);
              _browser_auth_code := s.(_browser_auth_code);
              _user_device_id := s.(_user_device_id) |} in
  match subscript info "expires_in" with
  | None => (s, true)
  | Some v5 =>
  let bac := match subscript info "browser_auth_code" with
             | Some v => v | None => s.(_browser_auth_code) end in
  let dev := match subscript info "device_id" with
             | Some v => v | None => s.(_user_device_id) end in
  ({| _user_id := s.(_user_id); _web_id := s.(_web_id);
      _sub_id := s.(_sub_id); _token := s.(_token); _expires_in := v5;
      _browser_auth_code := bac; _user_device_id := dev |}, false)
  end end end end end.

Definition _load_session (file : session_file) (st : backend) : backend :=
  let st := with_sess blank_session st in
  if negb st.(cfg).(save_session) then st
  else
    match file with
    | None => with_session_info empty_v2 st
    | Some (PDict d) =>
        let version := Dict.get_default "version" (PInt 1) d in
        let '(session_info, container) :=
          if Py.eq_str version "2"
          then (Dict.get_default st.(cfg).(username) PNone d, d)
          else (PDict d, Dict.set st.(cfg).(username) (PDict d) empty_v2) in
        if Py.is_none session_info then with_session_info container st
        else
          let '(s, raised) := restore_fields session_info in
          with_session_info (if raised then empty_v2 else container)
            (with_sess s st)
    | Some _ => with_session_info empty_v2 st
    end.

Definition session_record (s : session) : pyval :=
  PDict [("user_id", s.(_user_id)); ("web_id", s.(_web_id));
         ("sub_id", s.(_sub_id)); ("token", s.(_token));
         ("expires_in", s.(_expires_in));
         ("browser_auth_code", s.(_browser_auth_code));
         ("device_id", s.(_user_device_id))].

(** Every exception of the write is caught and logged (lines 163-164);
    nothing is raised. *)
Definition _save_session (write : write_outcome) (file : session_file)
    (st : backend) : session_file * backend :=
  if negb st.(cfg).(save_session) then (file, st)
  else
    let container :=
      Dict.set st.(cfg).(username) (session_record st.(sess))
        st.(_session_info) in
    match write with
    | Written => (Some (PDict container), with_session_info container st)
    | OpenFailed => (file, st)
    | DumpFailed => (None, with_session_info container st)
    end.

(** ** What the model takes from the Python runtime *)

(** [re.match], [str] and [int] on strings are library code.
    [re_compiles p] says whether [p] compiles as a regular expression
    ([re.match(p, s)] raises [re.error] when it does not), and [re_match p s]
    is [re.match(p, s) is not None] for a pattern [p] that compiles. *)
Class PyRuntime := {
  re_compiles : string -> bool;
  re_match : string -> string -> bool;
  py_str : pyval -> string;
  py_str_text : forall s, py_str (PStr s) = s;
  int_of_str : string -> option Z;
}.

(** A runtime for evaluating the model on concrete inputs: it agrees with
    Python on patterns without metacharacters (they compile, and [re.match]
    is then a prefix test) and on [str] of strings; the evaluations that use
    it have no other pattern, no [str] of another value and no [int] of a
    string. *)
Definition plain_runtime : PyRuntime :=
  {| re_compiles := fun _ => true;
     re_match := fun p s => Py.startswith s p;
     py_str := fun v => match v with PStr s => s | _ => "" end;
     py_str_text := fun s => eq_refl;
     int_of_str := fun _ => None |}.

(** A call that returns [a] or raises. *)
Inductive outcome (A : Type) :=
| Return (a : A)
| Raise.
Arguments Return {A} a.
Arguments Raise {A}.

(** [x in v] for a string [x]: membership in a dictionary's keys, in a list,
    or as a substring; [None] is the [TypeError] of the other values. *)
Definition py_in (x : string) (v : pyval) : option bool :=
  match v with
  | PDict d => Some (Dict.mem x d)
  | PStr s => Some (Py.contains x s)
  | PList l => Some (existsb (fun e => Py.eq_str e x) l)
  | _ => None
  end.

(** [int(v)] *)
Definition py_int `{PyRuntime} (v : pyval) : option Z :=
  match v with
  | PInt z => Some z
  | PBool b => Some (if b then 1 else 0)
  | PStr s => int_of_str s
  | _ => None
  end.

(** ** Request executor: [_request_tuple] *)

Inductive http_method := GET | PUT | POST | OPTIONS.

(** What the modelled code reads of a [requests] response. *)
Record http_response := {
  status_code : Z;
  content_type : option string;   (* r.headers["Content-Type"]; None: KeyError *)
  json : option pyval;            (* r.json(); None: it raises *)
  text : string;                  (* r.text *)
}.

(** The second component of the returned tuple ([Val PNone] is [None]). *)
Inductive reply :=
| Val (v : pyval)
| Stream (r : http_response).

Definition reply_is_none (b : reply) : bool :=
  match b with Val PNone => true | _ => false end.

Inductive warning :=
| WarnRequestError                 (* "request-error=..." *)
| WarnBodyError                    (* "body-error=..." *)
| WarnNewResponse (body : pyval)   (* "error in new response=..." *)
| WarnResponse (body : pyval).     (* "error in response=..." *)

Definition generic_failure : Z * reply := (500, Val PNone).

(** Lines 267-287: the two envelope shapes of a decoded body. *)
Definition normalize `{PyRuntime} (body : pyval)
  : outcome (Z * reply) * list warning :=
  match py_in "meta" body with
  | None => (Raise, [])
  | Some true =>
      match subscript body "meta" with
      | None => (Raise, [])
      | Some meta =>
          match subscript meta "code" with
          | None => (Raise, [])
          | Some code =>
              if Py.eq_int code 200 then
                match subscript body "data" with
                | None => (Raise, [])
                | Some data => (Return (200, Val data), [])
                end
              else
                match subscript meta "error" with
                | None => (Raise, [])
                | Some err =>
                    let w := if Py.eq_int err 9204 then []
                             else [WarnNewResponse body] in
                    match py_int code, subscript meta "message" with
                    | Some c, Some msg => (Return (c, Val msg), w)
                    | _, _ => (Raise, w)
                    end
                end
          end
      end
  | Some false =>
      match py_in "success" body with
      | Some true =>
          match subscript body "success" with
          | None => (Raise, [])
          | Some ok =>
              if Py.truthy ok then
                match subscript body "data" with
                | Some data => (Return (200, Val data), [])
                | None => (Return (200, Val (PDict [])), [])
                end
              else (Return generic_failure, [WarnResponse body])
          end
      | _ => (Return generic_failure, [])
      end
  end.

(** Lines 249-258: the body of a response, [None] when the [try] block
    raises (no Content-Type header, or [r.json()] fails). *)
Definition decode_body (r : http_response) : option pyval :=
  match r.(content_type) with
  | None => None
  | Some ct =>
      if Py.contains "application/json" ct then r.(json)
      else Some (PStr r.(text))
  end.

(** Whether a request goes on to line 249: an OPTIONS request and a
    streamed GET return inside the first [try]. *)
Definition reads_body (method : http_method) (stream : bool) : bool :=
  match method, stream with
  | OPTIONS, _ => false
  | GET, true => false
  | _, _ => true
  end.

(** [sent] is what [self._session.get/put/post/options] did: [None] when it
    raised, otherwise the response. *)
Definition _request_tuple `{PyRuntime} (method : http_method)
    (stream raw : bool) (sent : option http_response)
  : outcome (Z * reply) * list warning :=
  match sent with
  | None => (Return generic_failure, [WarnRequestError])
  | Some r =>
      if reads_body method stream then
        match decode_body r with
        | None => (Return generic_failure, [WarnBodyError])
        | Some body =>
            if negb (r.(status_code) =? 200)
            then (Return (r.(status_code), Val PNone), [])
            else if raw then (Return (200, Val body), [])
            else normalize body
        end
      else
        match method with
        | OPTIONS => (Return (200, Val PNone), [])
        | _ => (Return (200, Stream r), [])
        end
  end.

(** [auth_post]: a POST through [_request_tuple], neither streamed nor raw. *)
Definition auth_post `{PyRuntime} (sent : option http_response)
  : outcome (Z * reply) * list warning :=
  _request_tuple POST false false sent.

(** ** Event classifier and router: [_event_dispatcher] *)

(** One element of [responses]: device id, resource, sub-payload. *)
Record triple := {
  t_device : pyval;
  t_resource : string;
  t_event : pyval;
}.

(** [l[i]] for a list [l]: an integer (or boolean) index, negative ones
    counting from the end; [None] is the [IndexError] or [TypeError]. *)
Definition list_item (l : list pyval) (i : pyval) : option pyval :=
  let at_ (z : Z) :=
    let z' := if z <? 0 then z + Z.of_nat (length l) else z in
    if z' <? 0 then None else nth_error l (Z.to_nat z') in
  match i with
  | PInt z => at_ z
  | PBool b => at_ (if b then 1 else 0)
  | _ => None
  end.

(** Packet type #2: one triple per key other than "resource". *)
Definition automation_triples (resource : string) (response : pydict)
  : list triple :=
  omap (fun k =>
          if String.eqb k "resource" then None
          else (fun v => {| t_device := PStr k; t_resource := resource;
                            t_event := v |}) <$> Dict.get k response)
       (Dict.keys response).

(** Packet type #4: [for device_id in response.get('devices', {})]. *)
Definition devices_triples (resource : string) (response : pydict)
  : option (list triple) :=
  match Dict.get_default "devices" (PDict []) response with
  | PDict d =>
      Some (omap (fun k =>
                    (fun v => {| t_device := PStr k; t_resource := resource;
                                 t_event := v |}) <$> Dict.get k d)
                 (Dict.keys d))
  | PList l =>
      mapM (fun e =>
              (fun v => {| t_device := e; t_resource := resource;
                           t_event := v |}) <$> list_item l e) l
  | PStr s => if String.eqb s "" then Some [] else None
  | _ => None
  end.

(** The branch [resource in self._resource_types]. *)
Definition properties_triples (resource : string) (response : pydict)
  : option (list triple) :=
  match Dict.get_default "properties" (PList []) response with
  | PList props =>
      mapM (fun prop =>
              match prop with
              | PDict p =>
                  let device_id := Dict.get_default "serialNumber" PNone p in
                  let device_id :=
                    if Py.is_none device_id
                    then Dict.get_default "from" PNone response
                    else device_id in
                  Some {| t_device := device_id; t_resource := resource;
                          t_event := prop |}
              | _ => None
              end) props
  | _ =>
      Some [{| t_device := Dict.get_default "from" PNone response;
               t_resource := resource; t_event := PDict response |}]
  end.

(** The branch [resource.startswith("audioPlayback")]. *)
Definition audio_triples (resource : string) (response : pydict)
  : list triple :=
  let device_id := Dict.get_default "from" PNone response in
  let properties := Dict.get_default "properties" PNone response in
  let properties :=
    if String.eqb resource "audioPlayback/status"
    then PDict [("status", Dict.get_default "properties" PNone response)]
    else properties in
  if negb (Py.is_none device_id) && negb (Py.is_none properties)
  then [{| t_device := device_id; t_resource := resource;
           t_event := properties |}]
  else [].

(** The last branch: deviceId, then uniqueId, then locationId. *)
Definition fallback_triples (resource : string) (response : pydict)
  : list triple :=
  let device_id :=
    Dict.get_default "deviceId"
      (Dict.get_default "uniqueId"
         (Dict.get_default "locationId" PNone response) response) response in
  if negb (Py.is_none device_id)
  then [{| t_device := device_id; t_resource := resource;
           t_event := PDict response |}]
  else [].

(** Lines 312-413: the list [responses] the classification builds, [None]
    when it raises.  The early [return] of packet type #1 delivers nothing,
    like an empty list. *)
Definition event_triples (resource_types : list string) (response : pydict)
  : option (list triple) :=
  match Dict.get_default "resource" (PStr "") response with
  | PStr resource =>
      let err := Dict.get_default "error" PNone response in
      match err with
      | PNone | PDict _ =>
          if Py.startswith resource "subscriptions/" then Some []
          else if String.eqb resource "activeAutomations"
          then Some (automation_triples resource response)
          else if Dict.mem "states" response
          then
            let device_id := Dict.get_default "from" PNone response in
            if negb (Py.is_none device_id)
            then (fun v => [{| t_device := device_id; t_resource := "states";
                               t_event := v |}]) <$> Dict.get "states" response
            else Some []
          else if existsb (fun x => Py.startswith resource (x +:+ "/"))
                    resource_types
          then
            match Py.split "/" resource with
            | _ :: device_id :: _ =>
                Some [{| t_device := PStr device_id; t_resource := resource;
                         t_event := PDict response |}]
            | _ => None
            end
          else if String.eqb resource "devices"
          then devices_triples resource response
          else if existsb (String.eqb resource) resource_types
          then properties_triples resource response
          else if Py.startswith resource "audioPlayback"
          then Some (audio_triples resource response)
          else Some (fallback_triples resource response)
      | _ => None
      end
  | _ => None
  end.

(** One [self._arlo.bg.run(cb, resource=resource, event=response)]. *)
Record call := {
  c_callback : callback;
  c_resource : string;
  c_event : pyval;
}.

(** Lines 417-423: the list [cbs] of a triple's device id; [None] when
    [device_id in self._callbacks] raises. *)
Definition callbacks_for (callbacks : gmap string (list callback))
    (device_id : pyval) : option (list callback) :=
  let all := default [] (callbacks !! "all") in
  if Py.truthy device_id then
    match device_id with
    | PStr k => Some (default [] (callbacks !! k) ++ all)
    | PList _ | PDict _ => None
    | _ => Some all
    end
  else Some all.

(** Lines 416-425; the boolean says whether the loop raised, the calls made
    before it stay made. *)
Fixpoint deliver (callbacks : gmap string (list callback))
    (responses : list triple) : list call * bool :=
  match responses with
  | [] => ([], false)
  | t :: rest =>
      match callbacks_for callbacks t.(t_device) with
      | None => ([], true)
      | Some cbs =>
          let '(calls, raised) := deliver callbacks rest in
          (map (fun cb => {| c_callback := cb; c_resource := t.(t_resource);
                             c_event := t.(t_event) |}) cbs ++ calls, raised)
      end
  end.

Definition _event_dispatcher (st : backend) (response : pydict)
  : list call * bool :=
  match event_triples st.(_resource_types) response with
  | None => ([], true)
  | Some responses => deliver st.(_callbacks) responses
  end.

(** [ev_inject] *)
Definition ev_inject (st : backend) (response : pydict) : list call * bool :=
  _event_dispatcher st response.

(** ** Subscriber API *)

Record device := {
  device_id : string;
  unique_id : string;
}.

(** The three lines [if k not in d: d[k] = []; d[k].append(cb)]. *)
Definition append_callback (k : string) (cb : callback)
    (callbacks : gmap string (list callback)) : gmap string (list callback) :=
  <[k := default [] (callbacks !! k) ++ [cb]]> callbacks.

Definition add_listener (dev : device) (cb : callback) (st : backend) : backend :=
  with_callbacks
    (append_callback dev.(unique_id) cb
       (append_callback dev.(device_id) cb st.(_callbacks))) st.

Definition add_any_listener (cb : callback) (st : backend) : backend :=
  with_callbacks (append_callback "all" cb st.(_callbacks)) st.

Definition del_listener (dev : device) (cb : callback) (st : backend) : backend :=
  st.

(** ** Transaction correlator *)

(** [_start_transaction(tid)] with the identifier given. *)
Definition _start_transaction (tid : string) (st : backend) : string * backend :=
  (tid, with_requests (Dict.set tid PNone st.(_requests)) st).

(** The loop [for request in self._requests] of lines 473-479 on a string,
    over the keys in the order of the dictionary.  [re.match] raises on a
    key that does not compile: the loop ends there, the keys before it have
    been dealt with and the keys after it are left as they were.  The
    boolean says whether it raised. *)
Fixpoint resolve_loop `{PyRuntime} (keys : list string) (target : string)
    (response : pyval) (requests : pydict) : pydict * bool :=
  match keys with
  | [] => (requests, false)
  | request :: keys' =>
      if re_compiles request then
        resolve_loop keys' target response
          (if re_match request target
           then Dict.set request response requests else requests)
      else (requests, true)
  end.

Definition resolve_matching `{PyRuntime} (target : string) (response : pyval)
    (requests : pydict) : pydict * bool :=
  resolve_loop (Dict.keys requests) target response requests.

(** Lines 453-455, the block "Transaction ID"; [None] when
    [tid in self._requests] raises. *)
Definition store_by_tid (response : pydict) (requests : pydict)
  : option pydict :=
  let tid := Dict.get_default "transId" PNone response in
  if Py.truthy tid then
    match tid with
    | PStr t =>
        Some (if Dict.mem t requests
              then Dict.set t (PDict response) requests else requests)
    | PList _ | PDict _ => None
    | _ => Some requests
    end
  else Some requests.

(** Lines 460-479, the block "Resource"; the boolean says whether it
    raised.  With a target that is not a string [re.match] raises at the
    first key, whether or not that key compiles. *)
Definition store_by_resource `{PyRuntime} (response : pydict)
    (requests : pydict) : pydict * bool :=
  let resource := Dict.get_default "resource" PNone response in
  let device_id := Dict.get_default "from" PNone response in
  if Py.truthy resource then
    let exact : option (option string) :=
      match resource with
      | PStr r => Some (if Dict.mem r requests then Some r else None)
      | PList _ | PDict _ => None
      | _ => Some None
      end in
    match exact with
    | None => (requests, true)
    | Some (Some r) => (Dict.set r (PDict response) requests, false)
    | Some None =>
        let target :=
          if Py.truthy device_id
          then PStr (py_str resource +:+ ":" +:+ py_str device_id)
          else resource in
        match target with
        | PStr s => resolve_matching s (PDict response) requests
        | _ => (requests, match requests with [] => false | _ :: _ => true end)
        end
    end
  else (requests, false).

(** Lines 446-479: the two blocks one after the other, under the lock. *)
Definition correlate `{PyRuntime} (response : pydict)
    (requests : pydict) : pydict * bool :=
  match store_by_tid response requests with
  | None => (requests, true)
  | Some requests => store_by_resource response requests
  end.

(** [_event_handle_response]: the dispatcher, then the correlator (not
    reached when the dispatcher raises).  The dump file is not modelled. *)
Definition _event_handle_response `{PyRuntime} (response : pydict)
    (st : backend) : backend * list call * bool :=
  match _event_dispatcher st response with
  | (calls, true) => (st, calls, true)
  | (calls, false) =>
      let '(requests, raised) := correlate response st.(_requests) in
      (with_requests requests st, calls, raised)
  end.

(** What other threads did to [_requests] while the waiter was inside
    [self._lock.wait(...)], and the monotonic clock read after it. *)
Record wake := {
  during : pydict -> pydict;
  clock : Z;
}.

(** [response = self._requests.pop(tid)] inside the [try]: a missing key is
    the [KeyError] the handler turns into [None]. *)
Definition pop_transaction (tid : string) (requests : pydict)
  : pyval * pydict :=
  match Dict.get tid requests with
  | Some v => (v, Dict.remove tid requests)
  | None => (PNone, requests)
  end.

(** Lines 1146-1152.  Each element of [wakes] is one return of [wait]; when
    there is none left the last wait runs undisturbed to its timeout, so
    the clock has reached [mend] and the loop is left. *)
Fixpoint wait_loop (tid : string) (mend mnow : Z)
    (requests : pydict) (wakes : list wake)
  : pyval * pydict :=
  if mnow <? mend then
    match Dict.get tid requests with
    | None => (PNone, requests)
    | Some PNone =>
        match wakes with
        | [] => pop_transaction tid requests
        | w :: wakes' =>
            wait_loop tid mend w.(clock) (w.(during) requests) wakes'
        end
    | Some _ => pop_transaction tid requests
    end
  else pop_transaction tid requests.

(** [now] is the first reading of [time.monotonic()]. *)
Definition _wait_for_transaction (tid : string) (timeout : option Z)
    (now : Z) (wakes : list wake) (st : backend) : pyval * backend :=
  let timeout := match timeout with
                 | Some t => t
                 | None => st.(cfg).(request_timeout)
                 end in
  let mend := now + timeout in
  let '(response, requests) :=
    wait_loop tid mend now st.(_requests) wakes in
  (response, with_requests requests st).

(** ** Event supervisor: [_sse_main], [_event_main], [start_monitoring] *)

(** What iterating the SSE client yields. *)
Inductive sse_event :=
| SseNone                           (* the iterator yields [None] *)
| SseData (decoded : option pyval)  (* [json.loads(event.data)]; None: it raises *)
| SseRaise.                         (* the iterator raises *)

(** The [for event in self._event_client] loop with its handlers: every way
    out of it ends the function. *)
Fixpoint sse_events `{PyRuntime} (events : list sse_event) (st : backend)
  : backend * list call :=
  match events with
  | [] => (st, [])
  | SseData (Some (PDict response)) :: rest =>
      if Py.eq_str (Dict.get_default "action" (PStr "") response) "logout"
      then (st, [])
      else if Py.eq_str (Dict.get_default "status" (PStr "") response) "connected"
      then sse_events rest (with_event_connected true st)
      else
        let '(st', calls, raised) := _event_handle_response response st in
        if raised then (st', calls)
        else let '(st'', calls') := sse_events rest st' in
             (st'', calls ++ calls')
  | _ :: _ => (st, [])
  end.

Definition _sse_main `{PyRuntime} (events : list sse_event) (st : backend)
  : backend * list call :=
  sse_events events (with_event_client true st).

(** Lines 508-516: what [_event_main] does once the transport loop is over. *)
Definition clear_down (st : backend) : backend :=
  with_logged_in false
    (with_event_client false
       (with_requests [] (with_client_connected (Some false) st))).

(** One pass of the outer loop.  [logins] are the successive passes of the
    re-login loop, each one the wait and the call [self._login()] as the
    state change made while they run (what [_login] writes to the session
    attributes and to the container, also when it fails) together with the
    value returned, [Raise] when [_login] raises.  [transport] is the
    transport loop ([_mqtt_main] or [_sse_main]) as the state change it
    makes until it returns. *)
Record round := {
  logins : list (backend -> outcome bool * backend);
  transport : backend -> backend * list call;
}.

(** How the loop [while not self._logged_in] goes. *)
Inductive relogin_end :=
| LoggedIn (st : backend)      (* the loop is left *)
| StillOut (st : backend)      (* the passes listed are over, the loop goes on *)
| LoginRaised (st : backend).  (* [_login] raised *)

Definition relogin_state (e : relogin_end) : backend :=
  match e with
  | LoggedIn st | StillOut st | LoginRaised st => st
  end.

Fixpoint relogin (steps : list (backend -> outcome bool * backend))
    (st : backend) : relogin_end :=
  if st.(_logged_in) then LoggedIn st
  else match steps with
       | [] => StillOut st
       | step :: steps' =>
           match step st with
           | (Return r, st') => relogin steps' (with_logged_in r st')
           | (Raise, st') => LoginRaised st'
           end
       end.

Inductive supervisor :=
| Stopped (st : backend)      (* the outer loop saw [_stop_thread] *)
| Relogging (st : backend)    (* inside the re-login loop *)
| AtLoopHead (st : backend)   (* about to start the next pass *)
| Crashed (st : backend).     (* an exception of [_login] ended the thread *)

Fixpoint _event_main (rounds : list round) (st : backend)
  : supervisor * list call :=
  if st.(_stop_thread) then (Stopped st, [])
  else match rounds with
       | [] => (AtLoopHead st, [])
       | r :: rounds' =>
           match relogin r.(logins) st with
           | StillOut st1 => (Relogging st1, [])
           | LoginRaised st1 => (Crashed st1, [])
           | LoggedIn st1 =>
               let '(st2, calls) := r.(transport) st1 in
               let '(sup, calls') := _event_main rounds' (clear_down st2) in
               (sup, calls ++ calls')
           end
       end.

(** [topics] is [self._mqtt_topics()]. *)
Definition _select_backend (topics : list string) (st : backend) : backend :=
  if String.eqb st.(cfg).(event_backend) "auto"
  then with_use_mqtt (negb (length topics =? 0)%nat) st
  else if String.eqb st.(cfg).(event_backend) "mqtt"
  then with_use_mqtt true st
  else with_use_mqtt false st.

(** Lines 718-722.  [thread n] is what the event thread did to the state
    during the wait numbered [n]. *)
Fixpoint wait_stream_up (thread : nat -> backend -> backend)
    (fuel count : nat) (st : backend) : backend * nat :=
  match fuel with
  | O => (st, count)
  | S fuel' =>
      if negb st.(_event_connected) && (count <? 30)%nat
      then wait_stream_up thread fuel' (S count) (thread count st)
      else (st, count)
  end.

Record monitoring := {
  m_result : bool;          (* the value returned *)
  m_state : backend;
  m_waits : nat;            (* [count] at the end of the loop *)
  m_reconnect_job : bool;   (* [run_every(self._sse_reconnect, ...)] was called *)
}.

Definition start_monitoring (topics : list string)
    (thread : nat -> backend -> backend) (st : backend) : monitoring :=
  let st := _select_backend topics st in
  let st := with_event_client false st in
  let st := with_event_connected false st in
  let '(st, count) := wait_stream_up thread 30 0 st in
  {| m_result := true;
     m_state := st;
     m_waits := count;
     m_reconnect_job :=
       negb st.(_use_mqtt) && negb (st.(cfg).(reconnect_every) =? 0) |}.

(** ** Authenticator: [_auth] *)

Inductive AuthResult := CAN_RETRY | SUCCESS | FAILED.

Record auth_run := {
  a_result : outcome AuthResult;
  a_attempts : nat;          (* POSTs to the login endpoint *)
  a_sleeps : list Z;         (* the arguments of [time.sleep], in order:
                                the login loop's (line 839), then those of
                                the two-factor sub-flow (line 994) *)
  a_state : backend;
}.

Section Auth.
Context `{PyRuntime}.

(** [to_b64] of [util.py], which is not part of the sources at hand: only
    whether it raises matters here ([None]). *)
Variable to_b64 : pyval -> option string.

(** Lines 852-1003, the two-factor sub-flow entered when the login reply
    has a false "authCompleted": its result, the state it leaves, and the
    arguments of its [time.sleep(self._arlo.cfg.tfa_delay)] calls in
    order. *)
Variable second_factor :
  backend -> pyval -> outcome AuthResult * backend * list Z.

(** The login endpoint: the answer to the POST numbered [n] (from 1),
    [None] when the transport raises. *)
Variable server : nat -> option http_response.

(** Lines 822-839.  [left] bounds the passes as [attempt < 3] does.  The
    OPTIONS request sent before each POST only sets [_options], which
    nothing reads. *)
Fixpoint submit_credentials (left attempt : nat) (last : Z * reply)
  : outcome (Z * reply) * nat * list Z :=
  match left with
  | O => (Return last, attempt, [])
  | S left' =>
      let attempt := S attempt in
      match fst (auth_post (server attempt)) with
      | Raise => (Raise, attempt, [])
      | Return (code, body) =>
          if (code =? 200) || (code =? 401)
          then (Return (code, body), attempt, [])
          else
            let '(r, n, sleeps) :=
              submit_credentials left' attempt (code, body) in
            (r, n, 3 :: sleeps)
      end
  end.

(** [_update_auth_info(body)]; the boolean says whether it raised. *)
Definition _update_auth_info (body : pyval) (s : session) : session * bool :=
  let inner :=
    match py_in "accessToken" body with
    | None => None
    | Some true => subscript body "accessToken"
    | Some false => Some body
    end in
  match inner with
  | None => (s, true)
  | Some body =>
  match subscript body "token" with
  | None => (s, true)
  | Some token =>
  let s := {| _user_id := s.(_user_id); _web_id := s.(_web_id);
              _sub_id := s.(_sub_id); _token := token;
              _expires_in := s.(_expires_in);
              _browser_auth_code := s.(_browser_auth_code);
              _user_device_id := s.(_user_device_id) |} in
  match to_b64 token, subscript body "userId" with
  | Some _, Some user_id =>
  let s := {| _user_id := user_id; _web_id := s.(_web_id);
              _sub_id := s.(_sub_id); _token := s.(_token);
              _expires_in := s.(_expires_in);
              _browser_auth_code := s.(_browser_auth_code);
              _user_device_id := s.(_user_device_id) |} in
  match user_id with
  | PStr u =>
  let web_id := u +:+ "_web" in
  let s := {| _user_id := s.(_user_id); _web_id := PStr web_id;
              _sub_id := PStr ("subscriptions/" +:+ web_id);
              _token := s.(_token); _expires_in := s.(_expires_in);
              _browser_auth_code := s.(_browser_auth_code);
              _user_device_id := s.(_user_device_id) |} in
  match subscript body "expiresIn" with
  | None => (s, true)
  | Some expires =>
  ({| _user_id := s.(_user_id); _web_id := s.(_web_id);
      _sub_id := s.(_sub_id); _token := s.(_token); _expires_in := expires;
      _browser_auth_code :=
        match subscript body "browserAuthCode" with
        | Some c => c
        | None => s.(_browser_auth_code)
        end;
      _user_device_id := s.(_user_device_id) |}, false)
  end
  | _ => (s, true)
  end
  | _, _ => (s, true)
  end end end.

Definition _auth (st : backend) : auth_run :=
  let '(r, attempts, sleeps) := submit_credentials 3 0 (0, Val PNone) in
  let done (res : outcome AuthResult) (st : backend) :=
    {| a_result := res; a_attempts := attempts; a_sleeps := sleeps;
       a_state := st |} in
  match r with
  | Raise => done Raise st
  | Return (code, body) =>
      if reply_is_none body then done (Return CAN_RETRY) st
      else if negb (code =? 200) then done (Return FAILED) st
      else
        match body with
        | Stream _ => done Raise st
        | Val body =>
            let '(s, raised) := _update_auth_info body st.(sess) in
            let st := with_sess s st in
            if raised then done Raise st
            else
              match subscript body "authCompleted" with
              | None => done Raise st
              | Some completed =>
                  if Py.truthy completed then done (Return SUCCESS) st
                  else let '(res, st, more) := second_factor st body in
                       {| a_result := res; a_attempts := attempts;
                          a_sleeps := sleeps ++ more; a_state := st |}
              end
        end
  end.
End Auth.

(** ** The matcher chain, in the words of the amended claim C1 *)

Definition text_or_absent (v : pyval) : bool :=
  match v with PNone | PStr _ => true | _ => false end.

(** The string of a text field; an absent one counts as empty. *)
Definition text_of (v : pyval) : string :=
  match v with PStr s => s | _ => "" end.

Definition registered (requests : pydict) (k : string) : bool :=
  Dict.mem k requests.

(** Whether the rules pick the registered key [k]: the transaction
    identifier rule; and, whatever that rule did, the resource rules: the
    exact one, or, only when the resource itself is not registered, the
    pattern [k] matched against "resource:from" (the bare resource when
    there is no "from"). *)
Definition chain_selects `{PyRuntime} (response : pydict)
    (requests : pydict) (k : string) : bool :=
  let tid := text_of (Dict.get_default "transId" PNone response) in
  let resource := text_of (Dict.get_default "resource" PNone response) in
  let from := text_of (Dict.get_default "from" PNone response) in
  let target :=
    if String.eqb from "" then resource else resource +:+ ":" +:+ from in
  registered requests k
  && ((negb (String.eqb tid "") && String.eqb tid k)
      || (negb (String.eqb resource "")
          && (if registered requests resource then String.eqb resource k
              else re_match k target))).

(** [k] was waiting in [before] and holds a payload in [after]. *)
Definition resolved_by (before after : pydict) (k : string) : Prop :=
  Dict.get k before = Some PNone
  /\ exists v, Dict.get k after = Some v /\ v <> PNone.


(** The state after the waits numbered [c], ..., [c + n - 1] of
    [start_monitoring]. *)
Fixpoint waits_from (thread : nat -> backend -> backend) (c n : nat)
    (st : backend) : backend :=
  match n with
  | O => st
  | S n' => waits_from thread (S c) n' (thread c st)
  end.

(** ** Concrete states for evaluation *)

(** The attributes as [__init__] sets them before [_load_session]. *)
Definition fresh_backend (c : config) (resource_types : list string) : backend :=
  {| cfg := c; _session_info := []; sess := blank_session;
     _requests := []; _callbacks := ∅; _resource_types := resource_types;
     _use_mqtt := false; _event_client := false; _event_connected := false;
     _client_connected := None; _logged_in := false; _stop_thread := false |}.

Definition sample_config (account : string) : config :=
  {| save_session := true; username := account; request_timeout := 60;
     event_backend := "sse"; reconnect_every := 0 |}.

Definition sample_session : session :=
  {| _user_id := PStr "U1"; _web_id := PStr "U1_web";
     _sub_id := PStr "subscriptions/U1_web"; _token := PStr "tok";
     _expires_in := PInt 1700000000; _browser_auth_code := PStr "bac";
     _user_device_id := PStr "dev-1" |}.

Definition json_reply (status : Z) (body : pyval) : http_response :=
  {| status_code := status; content_type := Some "application/json";
     json := Some body; text := "" |}.

(** A device update that also carries a "states" entry. *)
Definition update_with_states : pydict :=
  [("resource", PStr "cameras/ABC123"); ("from", PStr "BASE01");
   ("states", PDict [("motion", PBool true)])].

Definition plain_update : pydict :=
  [("resource", PStr "cameras/ABC123"); ("from", PStr "BASE01");
   ("properties", PDict [("motionDetected", PBool true)])].

(** A device whose [device_id] is the empty string. *)
Definition unnamed_device : device := {| device_id := ""; unique_id := "U-1" |}.

Definition front_door : device :=
  {| device_id := "ABC123"; unique_id := "U-1_ABC123" |}.

Definition sample_backend : backend :=
  fresh_backend (sample_config "user@example.com") ["cameras"].

(** A notify reply that names its transaction and a registered resource. *)
Definition mode_reply : pydict :=
  [("transId", PStr "FE!1"); ("resource", PStr "modes");
   ("from", PStr "BASE01")].

Definition two_waiting : pydict :=
  Dict.set "FE!1" PNone (Dict.set "modes" PNone []).


Definition waiting_backend : backend :=
  with_requests (Dict.set "FE!1" PNone []) sample_backend.

(** An event thread that never reports the connection. *)
Definition silent_thread (n : nat) (st : backend) : backend := st.

(** An event thread whose stream acknowledges the connection during the
    third wait. *)
Definition thread_up_at_3 (n : nat) (st : backend) : backend :=
  if (n =? 2)%nat then with_event_connected true st else st.

(** A stream that acknowledges the connection and is then logged out. *)
Definition logged_out_stream : list sse_event :=
  [SseData (Some (PDict [("status", PStr "connected")]));
   SseData (Some (PDict [("action", PStr "logout")]))].

Definition logged_out_round : round :=
  {| logins := []; transport := @_sse_main plain_runtime logged_out_stream |}.

(** The login endpoint answering every POST with HTTP status [status]. *)
Definition always (status : Z) (body : pyval) (n : nat) : option http_response :=
  Some (json_reply status body).

(** Two answers with HTTP status 503, then a completed login. *)
Definition third_time_lucky (n : nat) : option http_response :=
  if (n <=? 2)%nat then Some (json_reply 503 (PDict []))
  else Some (json_reply 200
               (PDict [("meta", PDict [("code", PInt 200)]);
                       ("data", PDict [("token", PStr "tok");
                                       ("userId", PStr "U1");
                                       ("expiresIn", PInt 1700000000);
                                       ("authCompleted", PBool true)])])).

Definition no_second_factor (st : backend) (body : pyval)
  : outcome AuthResult * backend * list Z := (Return FAILED, st, []).

Definition b64_text (v : pyval) : option string :=
  match v with PStr s => Some s | _ => None end.

(** Two registered patterns and a device update both of them match. *)
Definition two_patterns : pydict :=
  Dict.set "cameras" PNone (Dict.set "cameras/ABC" PNone []).

(** A runtime in which a pattern that starts with "*" does not compile
    (Python: "nothing to repeat"), the other patterns being prefix tests. *)
Definition star_runtime : PyRuntime :=
  {| re_compiles := fun p => negb (Py.startswith p "*");
     re_match := fun p s => Py.startswith s p;
     py_str := fun v => match v with PStr s => s | _ => "" end;
     py_str_text := fun s => eq_refl;
     int_of_str := fun _ => None |}.

(** A key that does not compile, registered before and after one that
    does. *)
Definition bad_then_good : pydict :=
  Dict.set "cameras" PNone (Dict.set "*bad" PNone []).

Definition good_then_bad : pydict :=
  Dict.set "*bad" PNone (Dict.set "cameras" PNone []).

(** ** Further methods of the backend *)

Definition with_stop_thread (b : bool) (st : backend) : backend :=
  {| cfg := st.(cfg); _session_info := st.(_session_info); sess := st.(sess);
     _requests := st.(_requests); _callbacks := st.(_callbacks);
     _resource_types := st.(_resource_types); _use_mqtt := st.(_use_mqtt);
     _event_client := st.(_event_client);
     _event_connected := st.(_event_connected);
     _client_connected := st.(_client_connected);
     _logged_in := st.(_logged_in); _stop_thread := b |}.

(** [_event_stop_loop] *)
Definition _event_stop_loop (st : backend) : backend := with_stop_thread true st.

(** The state a result of [_event_main] stands in. *)
Definition state_of (s : supervisor) : backend :=
  match s with
  | Stopped st | Relogging st | AtLoopHead st | Crashed st => st
  end.

(** [msg.payload] as line 555 reads it. *)
Inductive mqtt_payload :=
| NotUtf8            (* [msg.payload.decode("utf-8")] raises UnicodeDecodeError *)
| NotJson            (* [json.loads] raises JSONDecodeError *)
| Json (v : pyval).  (* the value [json.loads] returns *)

(** [_mqtt_on_message]; the boolean says whether an exception leaves the
    handler.  The handler catches [JSONDecodeError] only: the
    [UnicodeDecodeError] of a payload that is not UTF-8, the
    [AttributeError] of [response.get] on a value that is not an object and
    what [_event_handle_response] raises all leave it. *)
Definition _mqtt_on_message `{PyRuntime} (payload : mqtt_payload)
    (st : backend) : backend * list call * bool :=
  match payload with
  | NotUtf8 => (st, [], true)
  | NotJson => (st, [], false)
  | Json (PDict response) =>
      if Py.eq_str (Dict.get_default "action" (PStr "") response) "logout"
      then (st, [], false)
      else _event_handle_response response st
  | Json _ => (st, [], true)
  end.

(** [_request]: the body of [_request_tuple]. *)
Definition _request `{PyRuntime} (method : http_method) (stream raw : bool)
    (sent : option http_response) : outcome reply :=
  match fst (_request_tuple method stream raw sent) with
  | Return (_, body) => Return body
  | Raise => Raise
  end.

(** Lines 1115-1118 of [_notify]: what it writes into the caller's body. *)
Definition notify_body (to : string) (web_id : pyval) (trans_id : string)
    (body : pydict) : pydict :=
  let body := Dict.set "to" (PStr to) body in
  let body := if Dict.mem "from" body then body
              else Dict.set "from" web_id body in
  Dict.set "transId" (PStr trans_id) body.

(** [_notify] with the transaction identifier given: the body posted and
    the value returned ([None] when the POST gave no body). *)
Definition _notify `{PyRuntime} (to : string) (trans_id : string)
    (body : pydict) (sent : option http_response) (st : backend)
  : pydict * outcome (option string) :=
  let body := notify_body to st.(sess).(_web_id) trans_id body in
  (body,
   match _request POST false false sent with
   | Raise => Raise
   | Return response =>
       Return (if reply_is_none response then None else Some trans_id)
   end).

(** [notify(..., wait_for="event")], lines 1195-1199.  [fresh] is the
    identifier [gen_trans_id] draws, [in_flight] what the event thread does
    to [_requests] while the POST is under way. *)
Definition notify_event `{PyRuntime} (to : string) (body : pydict)
    (timeout : option Z) (fresh : string) (sent : option http_response)
    (in_flight : pydict -> pydict)
    (now : Z) (wakes : list wake) (st : backend) : outcome pyval * backend :=
  let '(tid, st) := _start_transaction fresh st in
  match snd (_notify to tid body sent st) with
  | Raise => (Raise, st)
  | Return _ =>
      let st := with_requests (in_flight st.(_requests)) st in
      let '(response, st) := _wait_for_transaction tid timeout now wakes st in
      (Return response, st)
  end.

(** [post(..., wait_for="resource")], lines 1274-1280: the key is [tid], or
    the first key of [params]; [None] for [params] is Python's [None]. *)
Definition post_resource `{PyRuntime} (params : option pydict)
    (tid : option string) (raw : bool) (timeout : option Z)
    (sent : option http_response)
    (in_flight : pydict -> pydict)
    (now : Z) (wakes : list wake) (st : backend) : outcome pyval * backend :=
  let key :=
    match tid with
    | Some t => Some t
    | None => match params with
              | Some p => head (Dict.keys p)
              | None => None
              end
    end in
  match key with
  | None => (Raise, st)
  | Some key =>
      let '(key, st) := _start_transaction key st in
      match _request POST false raw sent with
      | Raise => (Raise, st)
      | Return _ =>
          let st := with_requests (in_flight st.(_requests)) st in
          let '(response, st) :=
            _wait_for_transaction key timeout now wakes st in
          (Return response, st)
      end
  end.

(** [_validate]: the token check is a GET whose body must not be [None]. *)
Definition _validate `{PyRuntime} (sent : option http_response) : outcome bool :=
  match _request GET false false sent with
  | Raise => Raise
  | Return body => Return (negb (reply_is_none body))
  end.

(** [_pair_auth_code]; [needs_pairing] is [self._needs_pairing] as [_auth]
    left it.  The cookie jar is not modelled. *)
Definition _pair_auth_code `{PyRuntime} (needs_pairing : bool)
    (sent : option http_response) (st : backend) : outcome bool :=
  if negb needs_pairing then Return true
  else if Py.is_none st.(sess).(_browser_auth_code) then Return true
  else match fst (auth_post sent) with
       | Raise => Raise
       | Return (code, _) => Return (code =? 200)
       end.

(** One pass of the loop over [cfg.ecdh_curves] in [_login]: [_auth] on the
    session built for the curve, and the answers to the validation and
    pairing requests should they be sent. *)
Record curve_try := {
  try_auth : backend -> outcome AuthResult * backend;
  try_needs_pairing : bool;
  try_validate_reply : option http_response;
  try_pair_reply : option http_response;
}.

(** Lines 1069-1093: [Return true] when the loop is left by [break],
    [Return false] when [_auth] failed or the curves ran out. *)
Fixpoint try_curves `{PyRuntime} (curves : list curve_try) (st : backend)
  : outcome bool * backend :=
  match curves with
  | [] => (Return false, st)
  | c :: curves' =>
      match c.(try_auth) st with
      | (Raise, st) => (Raise, st)
      | (Return FAILED, st) => (Return false, st)
      | (Return CAN_RETRY, st) => try_curves curves' st
      | (Return SUCCESS, st) =>
          match _validate c.(try_validate_reply) with
          | Raise => (Raise, st)
          | Return false => try_curves curves' st
          | Return true =>
              match _pair_auth_code c.(try_needs_pairing)
                      c.(try_pair_reply) st with
              | Raise => (Raise, st)
              | Return false => try_curves curves' st
              | Return true => (Return true, st)
              end
          end
      end
  end.

(** [_login]; [session_start] is what [_v2_session] returns and [write]
    what becomes of the write of the session file.  The user agent, the
    HTTP session object and its headers are not part of the state. *)
Definition _login `{PyRuntime} (curves : list curve_try)
    (session_start : outcome bool) (write : write_outcome)
    (file : session_file) (st : backend)
  : outcome bool * session_file * backend :=
  match try_curves curves st with
  | (Raise, st) => (Raise, file, st)
  | (Return false, st) => (Return false, file, st)
  | (Return true, st) =>
      let '(file, st) := _save_session write file st in
      (session_start, file, st)
  end.

(** ** Notions used by the further properties *)

(** [after] differs from [before] only in registered keys that now hold
    [response]. *)
Definition overwrites_only (response : pyval)
    (before after : pydict) : Prop :=
  forall k : string,
    (is_Some (Dict.get k after) <-> is_Some (Dict.get k before))
    /\ (Dict.get k after = Dict.get k before
        \/ Dict.get k after = Some response).

(** What the event thread does to [_requests] when it handles [event] with
    the registry and the resource types of [st]: the map
    [_event_handle_response] leaves, also when it raises. *)
Definition event_thread_handles `{PyRuntime} (event : pydict) (st : backend)
    (requests : pydict) : pydict :=
  (fst (fst (_event_handle_response event
               (with_requests requests st)))).(_requests).

(** The events on which the loop of [_sse_main] ends. *)
Definition ends_stream (e : sse_event) : bool :=
  match e with
  | SseData (Some (PDict response)) =>
      Py.eq_str (Dict.get_default "action" (PStr "") response) "logout"
  | _ => true
  end.

(** A payload that reaches the last branch of the classification. *)
Definition unclassified (resource_types : list string) (response : pydict)
    (resource : string) : bool :=
  negb (Py.startswith resource "subscriptions/")
  && negb (String.eqb resource "activeAutomations")
  && negb (Dict.mem "states" response)
  && negb (existsb (fun x => Py.startswith resource (x +:+ "/")) resource_types)
  && negb (String.eqb resource "devices")
  && negb (existsb (String.eqb resource) resource_types)
  && negb (Py.startswith resource "audioPlayback").

(** The "error" entry the dispatcher can log: absent, null or an object. *)
Definition error_loggable (response : pydict) : bool :=
  match Dict.get_default "error" PNone response with
  | PNone | PDict _ => true
  | _ => false
  end.

(** Two accounts in one container, the second with a record cut short. *)
Definition shared_container : pydict :=
  [("version", PStr "2");
   ("other@example.com", session_record sample_session);
   ("user@example.com", PDict [("user_id", PStr "U1")])].

(** A mode response for two base stations. *)
Definition modes_of_two_bases : pydict :=
  [("resource", PStr "activeAutomations");
   ("BASE01", PList [PDict [("activeModes", PList [PStr "mode1"])]]);
   ("BASE02", PList [PDict [("activeModes", PList [PStr "mode0"])]])].

(** A packet of no known shape whose "deviceId" is null. *)
Definition null_device_packet : pydict :=
  [("resource", PStr "mediaUploadNotification");
   ("deviceId", PNone); ("uniqueId", PStr "U-1_ABC123")].


(** The event that follows a mode change posted with "activeAutomations". *)
Definition automations_event : pydict :=
  [("resource", PStr "activeAutomations"); ("BASE01", PList [])].

(** A body that is a bare number: [normalize] raises on it. *)
Definition number_reply : http_response := json_reply 200 (PInt 5).

(** A pass during which [logout] sets the stop flag and closes the stream. *)
Definition stopping_round : round :=
  {| logins := []; transport := fun st => (_event_stop_loop st, []) |}.

(** A re-login in which [_auth] stored a new session and the session start
    then failed. *)
Definition failed_relogin (st : backend) : outcome bool * backend :=
  (Return false, with_sess sample_session st).

Definition failed_relogin_round : round :=
  {| logins := [failed_relogin];
     transport := @_sse_main plain_runtime logged_out_stream |}.

(** A curve on which the login completes without a second factor. *)
Definition good_curve : curve_try :=
  {| try_auth := fun st =>
       let run := @_auth plain_runtime b64_text no_second_factor
                    third_time_lucky st in
       (run.(a_result), run.(a_state));
     try_needs_pairing := false;
     try_validate_reply :=
       Some (json_reply 200 (PDict [("meta", PDict [("code", PInt 200)]);
                                    ("data", PDict [])]));
     try_pair_reply := None |}.

(** A curve on which the credentials are refused. *)
Definition refused_curve : curve_try :=
  {| try_auth := fun st => (Return FAILED, st);
     try_needs_pairing := false;
     try_validate_reply := None;
     try_pair_reply := None |}.

(** A curve on which Cloudflare blocks the request. *)
Definition blocked_curve : curve_try :=
  {| try_auth := fun st => (Return CAN_RETRY, st);
     try_needs_pairing := false;
     try_validate_reply := None;
     try_pair_reply := None |}.

(** The "data" of a completed login, and the same wrapped in "accessToken". *)
Definition login_data : pydict :=
  [("token", PStr "tok"); ("userId", PStr "U1");
   ("expiresIn", PInt 1700000000); ("authCompleted", PBool true)].

(** A base station reporting two child devices. *)
Definition children_event : pydict :=
  [("resource", PStr "devices");
   ("devices", PDict [("CAM01", PDict [("batteryLevel", PInt 80)]);
                      ("CAM02", PDict [("batteryLevel", PInt 15)])])].

(** * Properties *)

(** ** Facts about ordered dictionaries and strings *)

Lemma eqb_false_of_ne (a b : string) : a <> b -> String.eqb a b = false.
Proof. intros Hne. destruct (String.eqb_spec a b); [contradiction | reflexivity]. Qed.

Lemma dict_get_set_eq {V} (k : string) (v : V) (d : list (string * V)) :
  Dict.get k (Dict.set k v d) = Some v.
Proof.
  induction d as [|[k' v'] d IH]; simpl.
  - rewrite String.eqb_refl. reflexivity.
  - destruct (String.eqb k' k) eqn:E; simpl; rewrite E; [reflexivity | exact IH].
Qed.

Lemma dict_get_set_ne {V} (k k' : string) (v : V) (d : list (string * V)) :
  k <> k' -> Dict.get k' (Dict.set k v d) = Dict.get k' d.
Proof.
  intros Hne. induction d as [|[k0 v0] d IH]; simpl.
  - rewrite eqb_false_of_ne by exact Hne. reflexivity.
  - destruct (String.eqb k0 k) eqn:E; simpl.
    + apply String.eqb_eq in E. subst k0.
      rewrite eqb_false_of_ne by exact Hne. reflexivity.
    + destruct (String.eqb k0 k'); [reflexivity | exact IH].
Qed.

Lemma eq_str_true (v : pyval) (s : string) : Py.eq_str v s = true -> v = PStr s.
Proof.
  destruct v; simpl; try discriminate.
  intros E. apply String.eqb_eq in E. congruence.
Qed.

(** ** Session store *)

Lemma load_session_cfg (file : session_file) (st : backend) :
  (_load_session file st).(cfg) = st.(cfg).
Proof.
  unfold _load_session. simpl.
  destruct (negb (save_session (cfg st))); [reflexivity|].
  destruct file as [[| | | | |d]|]; try reflexivity.
  destruct (Py.eq_str _ "2").
  - destruct (Py.is_none _); [reflexivity|].
    destruct (restore_fields _) as [s r]. reflexivity.
  - simpl. destruct (restore_fields _) as [s r]. reflexivity.
Qed.

Lemma restore_session_record (s : session) :
  restore_fields (session_record s) = (s, false).
Proof. destruct s. reflexivity. Qed.

(** After [_load_session] the container carries the version tag. *)
Lemma load_session_version (file : session_file) (st : backend) :
  st.(cfg).(save_session) = true ->
  st.(cfg).(username) <> "version" ->
  Dict.get "version" (_load_session file st).(_session_info) = Some (PStr "2").
Proof.
  intros Hsave Hname. unfold _load_session. simpl. rewrite Hsave. simpl.
  destruct file as [[| | | | |d]|]; try reflexivity.
  destruct (Py.eq_str _ "2") eqn:Ev.
  - assert (Hd : Dict.get "version" d = Some (PStr "2")).
    { apply eq_str_true in Ev. unfold Dict.get_default in Ev.
      destruct (Dict.get "version" d); congruence. }
    destruct (Py.is_none _); [exact Hd|].
    destruct (restore_fields _) as [s [|]]; [reflexivity | exact Hd].
  - simpl.
    assert (Hc : Dict.get "version"
                   (Dict.set st.(cfg).(username) (PDict d) empty_v2)
                 = Some (PStr "2")).
    { rewrite dict_get_set_ne by exact Hname. reflexivity. }
    destruct (restore_fields _) as [s [|]]; [reflexivity | exact Hc].
Qed.

(** Saving under a versioned container and loading the file again. *)
Lemma save_then_load (file : session_file) (st st' : backend) :
  st.(cfg).(save_session) = true ->
  st.(cfg).(username) <> "version" ->
  st'.(cfg) = st.(cfg) ->
  Dict.get "version" st.(_session_info) = Some (PStr "2") ->
  (_load_session (fst (_save_session Written file st)) st').(sess) = st.(sess).
Proof.
  intros Hsave Hname Hcfg Hver.
  unfold _save_session. rewrite Hsave. simpl.
  unfold _load_session. simpl. rewrite Hcfg, Hsave. simpl.
  unfold Dict.get_default.
  rewrite dict_get_set_ne by exact Hname. rewrite Hver. simpl.
  rewrite dict_get_set_eq.
  rewrite restore_session_record. reflexivity.
Qed.

Lemma restore_fields_dict (d : pydict) (a b c t e : pyval) :
  Dict.get "user_id" d = Some a ->
  Dict.get "web_id" d = Some b ->
  Dict.get "sub_id" d = Some c ->
  Dict.get "token" d = Some t ->
  Dict.get "expires_in" d = Some e ->
  restore_fields (PDict d) =
    ({| _user_id := a; _web_id := b; _sub_id := c; _token := t;
        _expires_in := e;
        _browser_auth_code := Dict.get_default "browser_auth_code" PNone d;
        _user_device_id := Dict.get_default "device_id" PNone d |}, false).
Proof.
  intros Ha Hb Hc Ht He.
  unfold restore_fields, subscript, Dict.get_default.
  rewrite Ha, Hb, Hc, Ht, He. simpl.
  destruct (Dict.get "browser_auth_code" d), (Dict.get "device_id" d);
    reflexivity.
Qed.

(** What a version-1 file becomes in memory. *)
Lemma load_legacy (st : backend) (d : pydict) (a b c t e : pyval) :
  st.(cfg).(save_session) = true ->
  Dict.get "version" d = None ->
  Dict.get "user_id" d = Some a ->
  Dict.get "web_id" d = Some b ->
  Dict.get "sub_id" d = Some c ->
  Dict.get "token" d = Some t ->
  Dict.get "expires_in" d = Some e ->
  let st1 := _load_session (Some (PDict d)) st in
  st1.(_session_info) = Dict.set st.(cfg).(username) (PDict d) empty_v2
  /\ st1.(sess) =
       {| _user_id := a; _web_id := b; _sub_id := c; _token := t;
          _expires_in := e;
          _browser_auth_code := Dict.get_default "browser_auth_code" PNone d;
          _user_device_id := Dict.get_default "device_id" PNone d |}.
Proof.
  intros Hsave Hv Ha Hb Hc Ht He st1. subst st1.
  assert (Hver : Py.eq_str (Dict.get_default "version" (PInt 1) d) "2" = false).
  { unfold Dict.get_default. rewrite Hv. reflexivity. }
  unfold _load_session.
  change (cfg (with_sess blank_session st)) with (cfg st).
  rewrite Hsave, Hver. cbn [negb Py.is_none].
  rewrite (restore_fields_dict d a b c t e Ha Hb Hc Ht He).
  split; reflexivity.
Qed.

(** C5, as amended: with session saving enabled and an account whose name
    is not the container's own key "version", a session saved (the file
    being written) after the start-up load is read back field for field by
    a later load for the same account; and a version-1 file (a bare session dictionary without a
    "version" entry) is turned, in memory, into the version-"2" container
    with the old dictionary stored unchanged under the account, its entries
    being the attributes restored. *)
Theorem session_roundtrip_and_migration (st0 st' : backend) :
  st0.(cfg).(save_session) = true ->
  st0.(cfg).(username) <> "version" ->
  st'.(cfg) = st0.(cfg) ->
  (forall (file0 : session_file) (s : session),
      let st1 := with_sess s (_load_session file0 st0) in
      (_load_session (fst (_save_session Written file0 st1)) st').(sess) = s)
  /\
  (forall (d : pydict) (a b c t e : pyval),
      Dict.get "version" d = None ->
      Dict.get "user_id" d = Some a ->
      Dict.get "web_id" d = Some b ->
      Dict.get "sub_id" d = Some c ->
      Dict.get "token" d = Some t ->
      Dict.get "expires_in" d = Some e ->
      let st1 := _load_session (Some (PDict d)) st0 in
      st1.(_session_info)
        = [("version", PStr "2"); (st0.(cfg).(username), PDict d)]
      /\ st1.(sess) =
           {| _user_id := a; _web_id := b; _sub_id := c; _token := t;
              _expires_in := e;
              _browser_auth_code :=
                Dict.get_default "browser_auth_code" PNone d;
              _user_device_id := Dict.get_default "device_id" PNone d |}).
Proof.
  intros Hsave Hname Hcfg. split.
  - intros file0 s st1.
    transitivity (sess st1); [|reflexivity].
    apply save_then_load.
    + unfold st1. simpl. rewrite load_session_cfg. exact Hsave.
    + unfold st1. simpl. rewrite load_session_cfg. exact Hname.
    + unfold st1. simpl. rewrite load_session_cfg. exact Hcfg.
    + unfold st1. simpl. apply load_session_version; assumption.
  - intros d a b c t e Hv Ha Hb Hc Ht He.
    destruct (load_legacy st0 d a b c t e Hsave Hv Ha Hb Hc Ht He) as [Hi Hs].
    split; [|exact Hs].
    cbv zeta in Hi. rewrite Hi. unfold empty_v2, Dict.set.
    rewrite (eqb_false_of_ne "version" (username (cfg st0))) by congruence.
    reflexivity.
Qed.

Lemma session_roundtrip_and_migration_witness :
  let st0 := fresh_backend (sample_config "user@example.com") ["cameras"] in
  (_load_session
     (fst (_save_session Written None (with_sess sample_session (_load_session None st0))))
     st0).(sess) = sample_session.
Proof.
  intros st0.
  apply (session_roundtrip_and_migration st0 st0);
    [reflexivity | discriminate | reflexivity].
Defined.

(** C5 as stated fails for the account named "version": its saved record
    overwrites the container's version tag, the next load takes the file for
    a version-1 dictionary and restores nothing. *)
Lemma session_roundtrip_account_named_version :
  let st0 := fresh_backend (sample_config "version") ["cameras"] in
  let st1 := with_sess sample_session (_load_session None st0) in
  let st2 := _load_session (fst (_save_session Written None st1)) st0 in
  st1.(sess) = sample_session
  /\ st2.(sess) = blank_session
  /\ st2.(sess) <> sample_session.
Proof.
  vm_compute. repeat split. discriminate.
Qed.

(** ** Request executor *)

Section Request.
Context `{PyRuntime}.

Lemma dict_mem_of_get (k : string) (d : pydict) (v : pyval) :
  Dict.get k d = Some v -> Dict.mem k d = true.
Proof. unfold Dict.mem. intros ->. reflexivity. Qed.

Lemma normalize_meta_ok (b : pydict) (meta data : pyval) :
  Dict.get "meta" b = Some meta ->
  subscript meta "code" = Some (PInt 200) ->
  Dict.get "data" b = Some data ->
  normalize (PDict b) = (Return (200, Val data), []).
Proof.
  intros Hm Hc Hd. unfold normalize. simpl.
  rewrite (dict_mem_of_get _ _ _ Hm), Hm, Hc. simpl. rewrite Hd. reflexivity.
Qed.

Lemma normalize_meta_error (b : pydict) (meta err msg : pyval) (code : Z) :
  Dict.get "meta" b = Some meta ->
  subscript meta "code" = Some (PInt code) ->
  code <> 200 ->
  subscript meta "error" = Some err ->
  subscript meta "message" = Some msg ->
  normalize (PDict b) =
    (Return (code, Val msg),
     if Py.eq_int err 9204 then [] else [WarnNewResponse (PDict b)]).
Proof.
  intros Hm Hc Hne He Hmsg. unfold normalize. simpl.
  rewrite (dict_mem_of_get _ _ _ Hm), Hm, Hc. simpl.
  destruct (Z.eqb_spec code 200) as [|_]; [contradiction|].
  rewrite He, Hmsg. reflexivity.
Qed.

Lemma normalize_meta_ok_no_data (b : pydict) (meta : pyval) :
  Dict.get "meta" b = Some meta ->
  subscript meta "code" = Some (PInt 200) ->
  Dict.get "data" b = None ->
  normalize (PDict b) = (Raise, []).
Proof.
  intros Hm Hc Hd. unfold normalize. simpl.
  rewrite (dict_mem_of_get _ _ _ Hm), Hm, Hc. simpl. rewrite Hd. reflexivity.
Qed.

Lemma normalize_meta_error_incomplete (b : pydict) (meta : pyval) (code : Z) :
  Dict.get "meta" b = Some meta ->
  subscript meta "code" = Some (PInt code) ->
  code <> 200 ->
  subscript meta "error" = None \/ subscript meta "message" = None ->
  fst (normalize (PDict b)) = Raise.
Proof.
  intros Hm Hc Hne Hmiss. unfold normalize. simpl.
  rewrite (dict_mem_of_get _ _ _ Hm), Hm, Hc. simpl.
  destruct (Z.eqb_spec code 200) as [|_]; [contradiction|].
  destruct (subscript meta "error") as [err|]; [|reflexivity].
  destruct Hmiss as [Hmiss | Hmiss]; [discriminate|].
  rewrite Hmiss. reflexivity.
Qed.

Lemma normalize_success (b : pydict) (ok : bool) :
  Dict.get "meta" b = None ->
  Dict.get "success" b = Some (PBool ok) ->
  normalize (PDict b) =
    if ok
    then (Return (200, Val (Dict.get_default "data" (PDict []) b)), [])
    else (Return generic_failure, [WarnResponse (PDict b)]).
Proof.
  intros Hm Hs. unfold normalize. simpl. unfold Dict.mem, Dict.get_default.
  rewrite Hm, Hs. simpl. destruct ok; [|reflexivity].
  destruct (Dict.get "data" b); reflexivity.
Qed.

(** C8, as amended: a decoded body with an integer meta.code gives
    (200, data) for code 200 when the body has a "data" entry, and for
    another code the meta code with the meta message when meta has an
    "error" and a "message" entry, warning unless the meta error is 9204;
    when the entry it reads is missing ("data" for code 200, "error" or
    "message" for another code) the normalization raises instead of
    returning.  A body with a boolean "success" and no "meta" gives
    (200, data) on true, with an empty object for a missing "data", and the
    generic failure (500, None) on false; a transport exception and a body
    that cannot be decoded give the generic failure; a response whose HTTP
    status is not 200 gives that status, not 500, with an absent body. *)
Theorem request_tuple_normalization :
  (forall (b : pydict) (meta data : pyval),
      Dict.get "meta" b = Some meta ->
      subscript meta "code" = Some (PInt 200) ->
      Dict.get "data" b = Some data ->
      normalize (PDict b) = (Return (200, Val data), []))
  /\ (forall (b : pydict) (meta : pyval),
      Dict.get "meta" b = Some meta ->
      subscript meta "code" = Some (PInt 200) ->
      Dict.get "data" b = None ->
      normalize (PDict b) = (Raise, []))
  /\ (forall (b : pydict) (meta err msg : pyval) (code : Z),
      Dict.get "meta" b = Some meta ->
      subscript meta "code" = Some (PInt code) ->
      code <> 200 ->
      subscript meta "error" = Some err ->
      subscript meta "message" = Some msg ->
      exists w, normalize (PDict b) = (Return (code, Val msg), w)
                /\ (w = [] <-> Py.eq_int err 9204 = true))
  /\ (forall (b : pydict) (meta : pyval) (code : Z),
      Dict.get "meta" b = Some meta ->
      subscript meta "code" = Some (PInt code) ->
      code <> 200 ->
      subscript meta "error" = None \/ subscript meta "message" = None ->
      fst (normalize (PDict b)) = Raise)
  /\ (forall (b : pydict) (ok : bool),
      Dict.get "meta" b = None ->
      Dict.get "success" b = Some (PBool ok) ->
      fst (normalize (PDict b)) =
        if ok then Return (200, Val (Dict.get_default "data" (PDict []) b))
        else Return generic_failure)
  /\ (forall (m : http_method) (stream raw : bool),
      fst (_request_tuple m stream raw None) = Return generic_failure)
  /\ (forall (m : http_method) (stream raw : bool) (r : http_response),
      reads_body m stream = true ->
      decode_body r = None ->
      fst (_request_tuple m stream raw (Some r)) = Return generic_failure)
  /\ (forall (m : http_method) (stream raw : bool) (r : http_response)
             (body : pyval),
      reads_body m stream = true ->
      decode_body r = Some body ->
      r.(status_code) <> 200 ->
      fst (_request_tuple m stream raw (Some r))
        = Return (r.(status_code), Val PNone))
  /\ (forall (m : http_method) (stream : bool) (r : http_response)
             (body : pyval),
      reads_body m stream = true ->
      decode_body r = Some body ->
      r.(status_code) = 200 ->
      _request_tuple m stream false (Some r) = normalize body).
Proof.
  split; [exact normalize_meta_ok|].
  split; [exact normalize_meta_ok_no_data|].
  split.
  { intros b meta err msg code Hm Hc Hne He Hmsg. eexists. split.
    - apply (normalize_meta_error b meta err msg code); assumption.
    - destruct (Py.eq_int err 9204); split; intros E; congruence. }
  split; [exact normalize_meta_error_incomplete|].
  split.
  { intros b ok Hm Hs. rewrite (normalize_success b ok Hm Hs).
    destruct ok; reflexivity. }
  split; [reflexivity|].
  split.
  { intros m stream raw r Hb Hd. unfold _request_tuple.
    rewrite Hb, Hd. reflexivity. }
  split.
  { intros m stream raw r body Hb Hd Hs. unfold _request_tuple.
    rewrite Hb, Hd.
    destruct (Z.eqb_spec (status_code r) 200) as [|_]; [contradiction|].
    reflexivity. }
  intros m stream r body Hb Hd Hs. unfold _request_tuple.
  rewrite Hb, Hd, Hs. reflexivity.
Qed.

End Request.

Lemma request_tuple_normalization_witness :
  fst (@_request_tuple plain_runtime GET false false
         (Some (json_reply 404 (PDict []))))
    = Return (404, Val PNone)
  /\ @normalize plain_runtime
       (PDict [("meta", PDict [("code", PInt 200)]); ("data", PStr "x")])
     = (Return (200, Val (PStr "x")), [])
  /\ @normalize plain_runtime (PDict [("meta", PDict [("code", PInt 200)])])
     = (Raise, [])
  /\ fst (@normalize plain_runtime
            (PDict [("meta", PDict [("code", PInt 401);
                                    ("message", PStr "m")])]))
     = Raise.
Proof.
  destruct (@request_tuple_normalization plain_runtime)
    as (Hok & Hnodata & _ & Hmissing & _ & _ & _ & Hstatus & _).
  split; [|split; [|split]].
  - apply (Hstatus GET false false (json_reply 404 (PDict [])) (PDict []));
      [reflexivity | reflexivity | discriminate].
  - apply (Hok _ (PDict [("code", PInt 200)])); reflexivity.
  - apply (Hnodata _ (PDict [("code", PInt 200)])); reflexivity.
  - apply (Hmissing _ (PDict [("code", PInt 401); ("message", PStr "m")]) 401);
      [reflexivity | reflexivity | discriminate | left; reflexivity].
Defined.

(** C8 as stated fails on a response with HTTP status 404: the status
    returned is 404, not the generic 500. *)
Lemma request_tuple_http_404 :
  fst (@_request_tuple plain_runtime GET false false
         (Some (json_reply 404 (PDict [("success", PBool true)]))))
    = Return (404, Val PNone)
  /\ fst (@_request_tuple plain_runtime GET false false
            (Some (json_reply 404 (PDict [("success", PBool true)]))))
     <> Return generic_failure.
Proof. split; [reflexivity | discriminate]. Qed.

(** ** Event classifier and router *)

Lemma append_assoc (a b c : string) : (a +:+ b) +:+ c = a +:+ (b +:+ c).
Proof.
  induction a as [|x a IH]; [reflexivity|].
  change (String x ((a +:+ b) +:+ c) = String x (a +:+ b +:+ c)).
  rewrite IH. reflexivity.
Qed.

Lemma startswith_append (p s : string) : Py.startswith (p +:+ s) p = true.
Proof.
  unfold Py.startswith. induction p as [|x p IH]; simpl.
  - destruct s; reflexivity.
  - destruct (ascii_dec x x) as [_|Hne]; [exact IH | contradiction].
Qed.

Lemma has_char_append (c : ascii) (a b : string) :
  Py.has_char c (a +:+ b) = Py.has_char c a || Py.has_char c b.
Proof.
  induction a as [|x a IH]; simpl; [reflexivity|].
  rewrite IH. rewrite orb_assoc. reflexivity.
Qed.

Lemma split_head (c : ascii) (s : string) :
  exists rest, Py.split c s = Py.upto c s :: rest.
Proof.
  induction s as [|x s [rest IH]]; simpl.
  - exists []. reflexivity.
  - destruct (Ascii.eqb x c).
    + eexists. reflexivity.
    + rewrite IH. eexists. reflexivity.
Qed.

Lemma split_append (c : ascii) (a b : string) :
  Py.has_char c a = false ->
  Py.split c (a +:+ String c b) = a :: Py.split c b.
Proof.
  induction a as [|x a IH]; simpl.
  - intros _. rewrite Ascii.eqb_refl. reflexivity.
  - intros Hno. apply orb_false_elim in Hno as [Hx Ha].
    rewrite Hx, (IH Ha). reflexivity.
Qed.

Lemma upto_without (c : ascii) (s : string) :
  Py.has_char c s = false -> Py.upto c s = s.
Proof.
  induction s as [|x s IH]; simpl; [reflexivity|].
  intros Hno. apply orb_false_elim in Hno as [Hx Hs].
  rewrite Hx, (IH Hs). reflexivity.
Qed.

Lemma existsb_In {A} (f : A -> bool) (l : list A) (x : A) :
  In x l -> f x = true -> existsb f l = true.
Proof. intros Hin Hf. apply existsb_exists. exists x. split; assumption. Qed.

(** C6, as amended: a payload whose resource is "<type>/<rest>" for a known
    type without a slash, that no earlier rule of the ordered policy takes
    (the resource does not start with "subscriptions/", there is no
    top-level "states" entry) and whose "error" entry, if any, is an
    object, gives exactly one triple: its device id is the text of <rest>
    up to its first slash (all of <rest> when it has none), its resource
    the whole resource and its sub-payload the whole payload. *)
Theorem device_update_one_triple (resource_types : list string)
    (response : pydict) (type rest : string) :
  In type resource_types ->
  Py.has_char "/" type = false ->
  Dict.get "resource" response = Some (PStr (type +:+ "/" +:+ rest)) ->
  Py.startswith (type +:+ "/" +:+ rest) "subscriptions/" = false ->
  Dict.mem "states" response = false ->
  (Dict.get "error" response = None
   \/ Dict.get "error" response = Some PNone
   \/ exists e, Dict.get "error" response = Some (PDict e)) ->
  event_triples resource_types response =
    Some [{| t_device := PStr (Py.upto "/" rest);
             t_resource := type +:+ "/" +:+ rest;
             t_event := PDict response |}]
  /\ (Py.has_char "/" rest = false -> Py.upto "/" rest = rest).
Proof.
  intros Hin Htype Hres Hsub Hstates Herr.
  split; [|apply upto_without].
  unfold event_triples, Dict.get_default. rewrite Hres.
  assert (Hshape :
    match match Dict.get "error" response with Some v => v | None => PNone end
    with PNone | PDict _ => true | _ => false end = true).
  { destruct Herr as [-> | [-> | [e ->]]]; reflexivity. }
  destruct (match Dict.get "error" response with Some v => v | None => PNone end);
    try discriminate Hshape.
  all: rewrite Hsub.
  all: assert (Hauto : String.eqb (type +:+ "/" +:+ rest) "activeAutomations" = false)
    by (apply eqb_false_of_ne; intros E;
        apply (f_equal (Py.has_char "/")) in E;
        rewrite has_char_append in E; simpl in E;
        rewrite orb_true_r in E; discriminate E).
  all: rewrite Hauto, Hstates.
  all: rewrite (existsb_In _ resource_types type Hin)
    by (rewrite <- append_assoc; apply startswith_append).
  all: change (type +:+ "/" +:+ rest) with (type +:+ String "/" rest).
  all: rewrite (split_append "/" type rest Htype).
  all: destruct (split_head "/" rest) as [tl ->]; reflexivity.
Qed.

Lemma device_update_one_triple_witness :
  event_triples ["cameras"] plain_update =
    Some [{| t_device := PStr (Py.upto "/" "ABC123");
             t_resource := "cameras" +:+ "/" +:+ "ABC123";
             t_event := PDict plain_update |}]
  /\ (Py.has_char "/" "ABC123" = false -> Py.upto "/" "ABC123" = "ABC123").
Proof.
  apply (device_update_one_triple ["cameras"] plain_update "cameras" "ABC123");
    [left; reflexivity | reflexivity | reflexivity | reflexivity
    | reflexivity | left; reflexivity].
Defined.

(** C6 as stated fails on a payload with resource "cameras/ABC123" that
    also has a "states" entry: the "states" rule comes first, and the one
    triple it gives is keyed by "from" and carries the states only. *)
Lemma device_update_with_states :
  Dict.get "resource" update_with_states = Some (PStr "cameras/ABC123")
  /\ event_triples ["cameras"] update_with_states =
       Some [{| t_device := PStr "BASE01"; t_resource := "states";
                t_event := PDict [("motion", PBool true)] |}]
  /\ event_triples ["cameras"] update_with_states <>
       Some [{| t_device := PStr "ABC123"; t_resource := "cameras/ABC123";
                t_event := PDict update_with_states |}].
Proof. repeat split. discriminate. Qed.

(** ** Subscriber API *)

(** C9: [del_listener] returns the state it was given, so the registry and
    every other attribute are unchanged, the dispatcher makes the same
    calls afterwards, and a callback added before is still found under the
    keys it was added under. *)
Theorem del_listener_noop (dev : device) (cb : callback) (st : backend) :
  del_listener dev cb st = st
  /\ (del_listener dev cb st).(_callbacks) = st.(_callbacks)
  /\ (forall response : pydict,
        _event_dispatcher (del_listener dev cb st) response
        = _event_dispatcher st response)
  /\ (forall (dev' : device) (cb' : callback) (response : pydict),
        _event_dispatcher (del_listener dev cb (add_listener dev' cb' st)) response
        = _event_dispatcher (add_listener dev' cb' st) response).
Proof. repeat split. Qed.

Lemma append_callback_eq (k : string) (cb : callback)
    (reg : gmap string (list callback)) :
  append_callback k cb reg !! k = Some (default [] (reg !! k) ++ [cb]).
Proof. unfold append_callback. apply lookup_insert_eq. Qed.

Lemma append_callback_ne (k k' : string) (cb : callback)
    (reg : gmap string (list callback)) :
  k <> k' -> append_callback k cb reg !! k' = reg !! k'.
Proof. intros Hne. unfold append_callback. apply lookup_insert_ne. exact Hne. Qed.

Lemma callbacks_for_text (reg : gmap string (list callback)) (k : string) :
  k <> "" ->
  callbacks_for reg (PStr k)
  = Some (default [] (reg !! k) ++ default [] (reg !! "all")).
Proof.
  intros Hne. unfold callbacks_for. simpl.
  rewrite (eqb_false_of_ne k "" Hne). reflexivity.
Qed.

(** C10, as amended: [add_listener] appends the callback under the
    device's [device_id] and under its [unique_id] (twice to the one list
    when the two are equal), creates a list that was absent, and changes no
    other entry and no other attribute; an event routed under either
    identifier then reaches the callback provided the identifier is not
    the empty string, which the delivery guard skips. *)
Theorem add_listener_registers (dev : device) (cb : callback) (st : backend) :
  let reg := st.(_callbacks) in
  let reg' := (add_listener dev cb st).(_callbacks) in
  (forall k : string,
      k <> dev.(device_id) -> k <> dev.(unique_id) -> reg' !! k = reg !! k)
  /\ (dev.(device_id) <> dev.(unique_id) ->
      reg' !! dev.(device_id)
        = Some (default [] (reg !! dev.(device_id)) ++ [cb])
      /\ reg' !! dev.(unique_id)
        = Some (default [] (reg !! dev.(unique_id)) ++ [cb]))
  /\ (dev.(device_id) = dev.(unique_id) ->
      reg' !! dev.(device_id)
        = Some ((default [] (reg !! dev.(device_id)) ++ [cb]) ++ [cb]))
  /\ (forall k : string,
      k = dev.(device_id) \/ k = dev.(unique_id) ->
      k <> "" ->
      exists cbs, callbacks_for reg' (PStr k) = Some cbs /\ cb ∈ cbs)
  /\ add_listener dev cb st = with_callbacks reg' st.
Proof.
  intros reg reg'. subst reg reg'. simpl.
  split; [|split; [|split; [|split]]].
  - intros k Hd Hu.
    rewrite append_callback_ne by congruence.
    apply append_callback_ne. congruence.
  - intros Hne. split.
    + rewrite append_callback_ne by congruence. apply append_callback_eq.
    + rewrite append_callback_eq.
      rewrite append_callback_ne by exact Hne. reflexivity.
  - intros Heq. rewrite Heq, append_callback_eq, append_callback_eq.
    reflexivity.
  - intros k Hk Hne. rewrite (callbacks_for_text _ k Hne).
    eexists. split; [reflexivity|].
    apply elem_of_app. left.
    destruct (decide (k = dev.(unique_id))) as [-> | Hku].
    + rewrite append_callback_eq. simpl. apply elem_of_app. right.
      apply list_elem_of_singleton. reflexivity.
    + destruct Hk as [-> | ->]; [|contradiction].
      rewrite append_callback_ne by congruence.
      rewrite append_callback_eq. simpl. apply elem_of_app. right.
      apply list_elem_of_singleton. reflexivity.
  - reflexivity.
Qed.

Lemma add_listener_registers_witness :
  let st := add_listener front_door (Callback 1) sample_backend in
  (st.(_callbacks) !! "ABC123" = Some [Callback 1]
   /\ st.(_callbacks) !! "U-1_ABC123" = Some [Callback 1])
  /\ exists cbs, callbacks_for st.(_callbacks) (PStr "ABC123") = Some cbs
                 /\ Callback 1 ∈ cbs.
Proof.
  destruct (add_listener_registers front_door (Callback 1) sample_backend)
    as (_ & Hboth & _ & Hreach & _).
  split.
  - apply Hboth. discriminate.
  - apply Hreach; [left; reflexivity | discriminate].
Defined.

(** C10 as stated fails for a device whose [device_id] is the empty
    string: the callback is stored under that key, but an event routed
    under it (resource "cameras/") is delivered to nobody. *)
Lemma add_listener_empty_device_id :
  let st := add_listener unnamed_device (Callback 1) sample_backend in
  st.(_callbacks) !! "" = Some [Callback 1]
  /\ event_triples st.(_resource_types) [("resource", PStr "cameras/")]
     = Some [{| t_device := PStr ""; t_resource := "cameras/";
                t_event := PDict [("resource", PStr "cameras/")] |}]
  /\ callbacks_for st.(_callbacks) (PStr "") = Some []
  /\ _event_dispatcher st [("resource", PStr "cameras/")] = ([], false).
Proof. vm_compute. repeat split. Qed.

(** ** Transaction correlator *)

Lemma dict_get_remove_eq {V} (k : string) (d : list (string * V)) :
  Dict.get k (Dict.remove k d) = None.
Proof.
  induction d as [|[k' v'] d IH]; simpl; [reflexivity|].
  destruct (String.eqb k' k) eqn:E; simpl; [exact IH|].
  rewrite E. exact IH.
Qed.

Lemma dict_in_keys_mem {V} (k : string) (d : list (string * V)) :
  In k (Dict.keys d) -> Dict.mem k d = true.
Proof.
  unfold Dict.mem, Dict.keys.
  induction d as [|[k' v'] d IH]; simpl; [intros []|].
  intros [-> | Hin].
  - rewrite String.eqb_refl. reflexivity.
  - destruct (String.eqb k' k); [reflexivity | apply IH, Hin].
Qed.

Lemma dict_mem_keys {V} (k : string) (d : list (string * V)) :
  existsb (fun request => String.eqb request k) (Dict.keys d) = Dict.mem k d.
Proof.
  unfold Dict.mem, Dict.keys.
  induction d as [|[k' v'] d IH]; simpl; [reflexivity|].
  destruct (String.eqb k' k); [reflexivity | exact IH].
Qed.

Lemma registered_true (requests : pydict) (k : string) :
  registered requests k = true <-> is_Some (Dict.get k requests).
Proof.
  unfold registered, Dict.mem. destruct (Dict.get k requests).
  - split; intros _; [eexists|]; reflexivity.
  - split; [discriminate | intros [v Hv]; discriminate].
Qed.

Lemma registered_false (requests : pydict) (k : string) :
  registered requests k = false <-> Dict.get k requests = None.
Proof.
  unfold registered, Dict.mem. destruct (Dict.get k requests).
  - split; discriminate.
  - split; intros _; reflexivity.
Qed.

Lemma lookup_store_if_registered (requests : pydict)
    (t k : string) (v : pyval) :
  Dict.get k (if Dict.mem t requests then Dict.set t v requests else requests)
  = if registered requests k && String.eqb t k then Some v
    else Dict.get k requests.
Proof.
  unfold registered. destruct (String.eqb_spec t k) as [-> | Hne].
  - destruct (Dict.mem k requests); simpl;
      [apply dict_get_set_eq | reflexivity].
  - rewrite andb_false_r.
    destruct (Dict.mem t requests); [|reflexivity].
    apply dict_get_set_ne, Hne.
Qed.

Lemma registered_store_if_registered (requests : pydict)
    (t k : string) (v : pyval) :
  registered
    (if Dict.mem t requests then Dict.set t v requests else requests) k
  = registered requests k.
Proof.
  destruct (registered requests k) eqn:E.
  - apply registered_true. rewrite lookup_store_if_registered, E. simpl.
    destruct (String.eqb t k); [eexists; reflexivity|].
    apply registered_true, E.
  - apply registered_false. rewrite lookup_store_if_registered, E. simpl.
    apply registered_false, E.
Qed.

Section Correlator.
Context `{PyRuntime}.

(** A pattern loop all of whose keys compile does not raise, and stores the
    payload under the keys that match. *)
Lemma resolve_loop_lookup (target : string) (v : pyval) (keys : list string) :
  forall (requests : pydict) (k : string),
    (forall request, In request keys -> re_compiles request = true) ->
    snd (resolve_loop keys target v requests) = false
    /\ Dict.get k (fst (resolve_loop keys target v requests))
       = if existsb (fun request => String.eqb request k) keys
            && re_match k target
         then Some v else Dict.get k requests.
Proof.
  induction keys as [|request keys IH]; intros requests k Hok.
  - split; reflexivity.
  - cbn [resolve_loop existsb].
    rewrite (Hok request) by (left; reflexivity).
    destruct (IH (if re_match request target
                  then Dict.set request v requests else requests) k
                (fun r Hr => Hok r (or_intror Hr))) as [Hraise Hlook].
    split; [exact Hraise|]. rewrite Hlook.
    destruct (String.eqb_spec request k) as [-> | Hne]; cbn [orb].
    + destruct (re_match k target).
      * rewrite dict_get_set_eq. destruct (existsb _ keys); reflexivity.
      * rewrite !andb_false_r. reflexivity.
    + destruct (re_match request target);
        [rewrite dict_get_set_ne by exact Hne|]; reflexivity.
Qed.

Lemma resolve_matching_ok (requests : pydict) (target : string) (v : pyval) :
  (forall request, registered requests request = true ->
                   re_compiles request = true) ->
  exists requests',
    resolve_matching target v requests = (requests', false)
    /\ forall k,
         Dict.get k requests'
         = if registered requests k && re_match k target then Some v
           else Dict.get k requests.
Proof.
  intros Hok.
  assert (Hkeys : forall request, In request (Dict.keys requests) ->
                                  re_compiles request = true).
  { intros request Hin. apply Hok. apply dict_in_keys_mem, Hin. }
  exists (fst (resolve_matching target v requests)). split.
  - destruct (resolve_loop_lookup target v (Dict.keys requests) requests ""
                Hkeys) as [Hraise _].
    unfold resolve_matching.
    destruct (resolve_loop (Dict.keys requests) target v requests) as [r b].
    simpl in Hraise. subst b. reflexivity.
  - intros k. unfold resolve_matching, registered.
    rewrite <- dict_mem_keys.
    apply resolve_loop_lookup, Hkeys.
Qed.

Lemma store_by_tid_text (response : pydict) (requests : pydict) :
  text_or_absent (Dict.get_default "transId" PNone response) = true ->
  exists requests1,
    store_by_tid response requests = Some requests1
    /\ (forall k, registered requests1 k = registered requests k)
    /\ (forall k,
          Dict.get k requests1 =
            if registered requests k
               && (negb (String.eqb
                           (text_of (Dict.get_default "transId" PNone response)) "")
                   && String.eqb
                        (text_of (Dict.get_default "transId" PNone response)) k)
            then Some (PDict response) else Dict.get k requests).
Proof.
  unfold store_by_tid.
  destruct (Dict.get_default "transId" PNone response) as [| | |t| |];
    try discriminate; intros _; simpl.
  - exists requests. split; [reflexivity|]. split; [reflexivity|].
    intros k. rewrite andb_false_r. reflexivity.
  - destruct (String.eqb t "") eqn:E; simpl.
    + exists requests. split; [reflexivity|]. split; [reflexivity|].
      intros k. rewrite andb_false_r. reflexivity.
    + eexists. split; [reflexivity|]. split.
      * intros k. apply registered_store_if_registered.
      * intros k. apply lookup_store_if_registered.
Qed.

Lemma store_by_resource_text (response : pydict) (requests : pydict) :
  text_or_absent (Dict.get_default "resource" PNone response) = true ->
  text_or_absent (Dict.get_default "from" PNone response) = true ->
  (forall request, registered requests request = true ->
                   re_compiles request = true) ->
  let resource := text_of (Dict.get_default "resource" PNone response) in
  let from := text_of (Dict.get_default "from" PNone response) in
  let target :=
    if String.eqb from "" then resource else resource +:+ ":" +:+ from in
  exists requests2,
    store_by_resource response requests = (requests2, false)
    /\ (forall k,
          Dict.get k requests2 =
            if registered requests k
               && (negb (String.eqb resource "")
                   && (if registered requests resource
                       then String.eqb resource k else re_match k target))
            then Some (PDict response) else Dict.get k requests).
Proof.
  unfold store_by_resource.
  destruct (Dict.get_default "resource" PNone response) as [| | |r| |];
    try discriminate; intros _ Hfrom Hok; simpl.
  - exists requests. split; [reflexivity|].
    intros k. rewrite andb_false_r. reflexivity.
  - destruct (String.eqb r "") eqn:E; simpl.
    + exists requests. split; [reflexivity|].
      intros k. rewrite andb_false_r. reflexivity.
    + unfold registered at 2.
      destruct (Dict.mem r requests) eqn:Hs.
      * eexists. split; [reflexivity|]. intros k.
        destruct (String.eqb_spec r k) as [<- | Hne].
        -- unfold registered. rewrite Hs. simpl. apply dict_get_set_eq.
        -- rewrite andb_false_r. apply dict_get_set_ne, Hne.
      * destruct (Dict.get_default "from" PNone response) as [| | |f| |];
          try discriminate; simpl.
        -- apply resolve_matching_ok, Hok.
        -- destruct (String.eqb f "") eqn:Ef; simpl.
           ++ apply resolve_matching_ok, Hok.
           ++ rewrite !py_str_text. apply resolve_matching_ok, Hok.
Qed.

(** C1, as amended: for a payload whose transaction identifier, resource
    and originating id are strings or absent, and a pending map every key
    of which compiles as a regular expression, the correlator does not
    raise and stores the payload under exactly the registered keys the
    chain selects: the key equal to the transaction identifier, and, whether
    or not that rule fired, the key equal to the resource or, only when the
    resource is not itself registered, every key that matches as a pattern
    the "resource:id" compound (the bare resource without an originating
    id); every other entry is unchanged.  More than one key can be
    resolved. *)
Theorem correlate_matcher_chain (response : pydict) (requests : pydict) :
  text_or_absent (Dict.get_default "transId" PNone response) = true ->
  text_or_absent (Dict.get_default "resource" PNone response) = true ->
  text_or_absent (Dict.get_default "from" PNone response) = true ->
  (forall k, registered requests k = true -> re_compiles k = true) ->
  exists requests',
    correlate response requests = (requests', false)
    /\ forall k,
         Dict.get k requests' =
           if chain_selects response requests k
           then Some (PDict response) else Dict.get k requests.
Proof.
  intros Htid Hres Hfrom Hok. unfold correlate.
  destruct (store_by_tid_text response requests Htid)
    as (requests1 & -> & Hreg & Hlook1).
  assert (Hok1 : forall k, registered requests1 k = true ->
                           re_compiles k = true).
  { intros k Hk. apply Hok. rewrite <- Hreg. exact Hk. }
  destruct (store_by_resource_text response requests1 Hres Hfrom Hok1)
    as (requests2 & -> & Hlook2).
  exists requests2. split; [reflexivity|].
  intros k. rewrite Hlook2, !Hreg, Hlook1. unfold chain_selects.
  destruct (registered requests k); simpl; [|reflexivity].
  destruct (negb (String.eqb (text_of (Dict.get_default "transId" PNone response)) "")
            && String.eqb (text_of (Dict.get_default "transId" PNone response)) k);
    simpl; [|reflexivity].
  match goal with |- (if ?b then _ else _) = _ => destruct b; reflexivity end.
Qed.

End Correlator.

Lemma correlate_matcher_chain_witness :
  exists requests',
    @correlate plain_runtime mode_reply two_waiting = (requests', false)
    /\ forall k,
         Dict.get k requests' =
           if @chain_selects plain_runtime mode_reply two_waiting k
           then Some (PDict mode_reply) else Dict.get k two_waiting.
Proof.
  apply (@correlate_matcher_chain plain_runtime mode_reply two_waiting);
    [reflexivity | reflexivity | reflexivity | intros k _; reflexivity].
Defined.

(** The pattern loop has no [break]: one payload resolves both patterns. *)
Lemma correlate_pattern_resolves_every_match :
  let after := fst (@correlate plain_runtime plain_update two_patterns) in
  Dict.get "cameras" after = Some (PDict plain_update)
  /\ Dict.get "cameras/ABC" after = Some (PDict plain_update).
Proof. vm_compute. split; reflexivity. Qed.

(** A registered key that does not compile ends the pattern loop with an
    exception: a matching key registered after it stays unresolved, one
    registered before it has been resolved. *)
Lemma correlate_stops_at_bad_pattern :
  @correlate star_runtime plain_update bad_then_good = (bad_then_good, true)
  /\ @correlate star_runtime plain_update good_then_bad
     = ([("cameras", PDict plain_update); ("*bad", PNone)], true).
Proof. vm_compute. split; reflexivity. Qed.

(** When the dispatcher does not raise, the resource the correlator reads
    is a string or absent. *)
Lemma dispatched_resource_text (resource_types : list string)
    (response : pydict) (responses : list triple) :
  event_triples resource_types response = Some responses ->
  text_or_absent (Dict.get_default "resource" PNone response) = true.
Proof.
  unfold event_triples, Dict.get_default.
  destruct (Dict.get "resource" response) as [[]|]; try discriminate; reflexivity.
Qed.

(** C1 as stated fails on a payload that names a registered transaction
    and a registered resource: both keys are resolved by the one payload,
    the resource rule running although the identifier rule had fired. *)
Lemma correlate_resolves_two_keys :
  let after := fst (@correlate plain_runtime mode_reply two_waiting) in
  resolved_by two_waiting after "FE!1"
  /\ resolved_by two_waiting after "modes"
  /\ "FE!1" <> "modes".
Proof.
  split; [|split; [|discriminate]].
  - split; [reflexivity|]. exists (PDict mode_reply).
    split; [vm_compute; reflexivity | discriminate].
  - split; [reflexivity|]. exists (PDict mode_reply).
    split; [vm_compute; reflexivity | discriminate].
Qed.







(** ** Event supervisor *)

Lemma wait_stream_up_spec (thread : nat -> backend -> backend) (fuel : nat) :
  forall (count : nat) (st : backend),
    (count <= 30)%nat ->
    (30 <= count + fuel)%nat ->
    exists n : nat,
      wait_stream_up thread fuel count st
        = (waits_from thread count n st, (count + n)%nat)
      /\ (count + n <= 30)%nat
      /\ ((waits_from thread count n st).(_event_connected) = true
          \/ (count + n)%nat = 30%nat)
      /\ (forall i, (i < n)%nat ->
                    (waits_from thread count i st).(_event_connected) = false).
Proof.
  induction fuel as [|fuel IH]; intros count st Hle Hfuel; simpl.
  - exists 0%nat. simpl. rewrite Nat.add_0_r.
    split; [reflexivity|]. split; [lia|]. split; [right; lia|].
    intros i Hi. lia.
  - destruct (_event_connected st) eqn:Hc; simpl.
    + exists 0%nat. simpl. rewrite Nat.add_0_r.
      split; [reflexivity|]. split; [lia|]. split; [left; exact Hc|].
      intros i Hi. lia.
    + destruct (Nat.ltb_spec count 30) as [Hlt|Hge].
      * destruct (IH (S count) (thread count st)) as (n & Heq & Hn & Hend & Hbefore);
          [lia | lia |].
        exists (S n). simpl. rewrite Heq.
        replace (count + S n)%nat with (S count + n)%nat by lia.
        split; [reflexivity|]. split; [lia|]. split; [exact Hend|].
        intros [|i] Hi; simpl; [exact Hc | apply Hbefore; lia].
      * exists 0%nat. simpl. rewrite Nat.add_0_r.
        split; [reflexivity|]. split; [lia|]. split; [right; lia|].
        intros i Hi. lia.
Qed.

(** C2, as amended: [start_monitoring] returns after the first wait at
    whose end the connection is confirmed, or after 30 waits when there is
    none, and returns true in both cases; its value does not tell whether
    the connection was achieved. *)
Theorem start_monitoring_returns_true (topics : list string)
    (thread : nat -> backend -> backend) (st : backend) :
  let m := start_monitoring topics thread st in
  let st0 := with_event_connected false
               (with_event_client false (_select_backend topics st)) in
  m.(m_result) = true
  /\ (m.(m_waits) <= 30)%nat
  /\ m.(m_state) = waits_from thread 0 m.(m_waits) st0
  /\ (m.(m_state).(_event_connected) = true \/ m.(m_waits) = 30%nat)
  /\ (forall i, (i < m.(m_waits))%nat ->
                (waits_from thread 0 i st0).(_event_connected) = false).
Proof.
  intros m st0. subst m. unfold start_monitoring. fold st0.
  destruct (wait_stream_up_spec thread 30 0 st0) as (n & Heq & Hn & Hend & Hbefore);
    [lia | lia |].
  rewrite Heq. simpl.
  split; [reflexivity|]. split; [exact Hn|]. split; [reflexivity|].
  split; [exact Hend | exact Hbefore].
Qed.

Lemma start_monitoring_returns_true_witness :
  let m := start_monitoring [] thread_up_at_3 sample_backend in
  m.(m_result) = true
  /\ (waits_from thread_up_at_3 0 2
        (with_event_connected false
           (with_event_client false (_select_backend [] sample_backend)))
     ).(_event_connected) = false.
Proof.
  destruct (start_monitoring_returns_true [] thread_up_at_3 sample_backend)
    as (Hres & _ & _ & _ & Hbefore).
  split; [exact Hres|].
  apply Hbefore. vm_compute. lia.
Defined.

(** C2 as stated fails when the connection never comes up: after 30 waits
    the flag is still false and the value returned is true. *)
Lemma start_monitoring_true_without_connection :
  let m := start_monitoring [] silent_thread sample_backend in
  m.(m_waits) = 30%nat
  /\ m.(m_state).(_event_connected) = false
  /\ m.(m_result) = true
  /\ m.(m_result) <> m.(m_state).(_event_connected).
Proof. vm_compute. repeat split. discriminate. Qed.

(** What lines 508-516 change and what they leave: the flag they write is
    [_client_connected]; [_event_connected], the flag the transports set
    and [start_monitoring] waits for, keeps its value. *)
Lemma clear_down_effect (st : backend) :
  (clear_down st).(_client_connected) = Some false
  /\ (clear_down st).(_requests) = []
  /\ (clear_down st).(_logged_in) = false
  /\ (clear_down st).(_event_client) = false
  /\ (clear_down st).(_event_connected) = st.(_event_connected).
Proof. repeat split. Qed.

(** A waiter that runs after the map was emptied gets [None]. *)
Lemma waiter_after_clear_down (tid : string) (mend mnow : Z)
    (wakes : list wake) :
  wait_loop tid mend mnow [] wakes = (PNone, []).
Proof.
  destruct wakes; simpl; destruct (mnow <? mend); reflexivity.
Qed.

(** Every pass of the outer loop that gets through the transport ends with
    the cleared state and goes on from there. *)
Lemma event_main_pass (r : round) (rounds : list round) (st st1 : backend) :
  st.(_stop_thread) = false ->
  relogin r.(logins) st = LoggedIn st1 ->
  _event_main (r :: rounds) st
  = (let '(st2, calls) := r.(transport) st1 in
     let '(sup, calls') := _event_main rounds (clear_down st2) in
     (sup, calls ++ calls')).
Proof. intros Hstop Hlogin. simpl. rewrite Hstop, Hlogin. reflexivity. Qed.

(** C4 on a stream that acknowledges the connection and is then logged
    out: the supervisor is back at the head of its loop, logged out and
    with no pending transaction, but [_event_connected] is still true. *)
Theorem event_main_leaves_event_connected :
  let st := with_logged_in true waiting_backend in
  exists st' : backend,
    fst (_event_main [logged_out_round] st) = AtLoopHead st'
    /\ st'.(_logged_in) = false
    /\ st'.(_requests) = []
    /\ st'.(_client_connected) = Some false
    /\ st'.(_event_connected) = true.
Proof. eexists. vm_compute. repeat split. Qed.

(** ** Authenticator *)

Section AuthFacts.
Context `{PyRuntime}.
Variable to_b64 : pyval -> option string.
Variable second_factor :
  backend -> pyval -> outcome AuthResult * backend * list Z.

(** The login loop makes at most [left] further attempts and sleeps 3
    after each attempt that was neither 200 nor 401. *)
Lemma submit_credentials_bound (server : nat -> option http_response)
    (left : nat) :
  forall (attempt : nat) (last : Z * reply),
    let '(_, n, sleeps) := submit_credentials server left attempt last in
    (attempt <= n <= attempt + left)%nat
    /\ (length sleeps <= n - attempt)%nat
    /\ Forall (fun d => d = 3) sleeps.
Proof.
  induction left as [|left IH]; intros attempt last; simpl.
  - repeat split; [lia | lia | lia | constructor].
  - destruct (fst (auth_post (server (S attempt)))) as [[code body]|].
    + destruct ((code =? 200) || (code =? 401)).
      * repeat split; simpl; [lia | lia | lia | constructor].
      * specialize (IH (S attempt) (code, body)).
        destruct (submit_credentials server left (S attempt) (code, body))
          as [[r n] sleeps].
        destruct IH as (Hn & Hlen & Hall).
        repeat split; simpl; [lia | lia | lia | constructor; [reflexivity | exact Hall]].
    + repeat split; simpl; [lia | lia | lia | constructor].
Qed.

(** An answer with HTTP status [status] other than 200 reaches [_auth] as
    [(status, None)]. *)
Lemma auth_post_status (status : Z) (ct t : string) (body : pyval) :
  status <> 200 ->
  fst (auth_post (Some {| status_code := status; content_type := Some ct;
                          json := Some body; text := t |}))
  = Return (status, Val PNone).
Proof.
  intros Hne. unfold auth_post, _request_tuple, decode_body. simpl.
  destruct (Py.contains "application/json" ct); simpl;
    destruct (Z.eqb_spec status 200); try contradiction; reflexivity.
Qed.

(** C3 at an endpoint that answers HTTP 401: one attempt, no sleep, and
    the result is CAN_RETRY, because the body of a non-200 response is
    dropped and the test for an absent body comes first. *)
Theorem auth_http_401_can_retry (ct t : string) (body : pyval) (st : backend) :
  let r401 := {| status_code := 401; content_type := Some ct;
                 json := Some body; text := t |} in
  let run := _auth to_b64 second_factor (fun _ => Some r401) st in
  run.(a_result) = Return CAN_RETRY
  /\ run.(a_attempts) = 1%nat
  /\ run.(a_sleeps) = [].
Proof.
  intros r401 run. subst run r401. unfold _auth.
  cbn [submit_credentials].
  rewrite (auth_post_status 401 ct t body) by discriminate.
  repeat split.
Qed.

(** The same code 401 arriving in a meta envelope of an HTTP 200 answer,
    with its message, gives FAILED after one attempt. *)
Lemma auth_meta_401_failed (msg : string) (st : backend) :
  let envelope :=
    PDict [("meta", PDict [("code", PInt 401); ("error", PInt 1006);
                           ("message", PStr msg)])] in
  let run := _auth to_b64 second_factor (always 200 envelope) st in
  run.(a_result) = Return FAILED
  /\ run.(a_attempts) = 1%nat
  /\ run.(a_sleeps) = [].
Proof. repeat split. Qed.

End AuthFacts.

(** Two answers that are neither 200 nor 401, then a completed login:
    three attempts, two sleeps of 3, SUCCESS. *)
Lemma auth_third_time_lucky :
  let run := @_auth plain_runtime b64_text no_second_factor third_time_lucky
               sample_backend in
  run.(a_result) = Return SUCCESS
  /\ run.(a_attempts) = 3%nat
  /\ run.(a_sleeps) = [3; 3].
Proof. vm_compute. repeat split. Qed.

(** * Further properties *)

(** ** Session store *)

(** [_load_session] on a file that cannot be read, or that does not hold a
    dictionary: the attributes are blank and the container starts again as
    the empty version-"2" one. *)
Theorem load_session_unreadable (file : session_file) (st : backend) :
  st.(cfg).(save_session) = true ->
  (file = None \/ exists v, file = Some v /\ forall d, v <> PDict d) ->
  (_load_session file st).(sess) = blank_session
  /\ (_load_session file st).(_session_info) = empty_v2.
Proof.
  intros Hsave Hfile. unfold _load_session. simpl. rewrite Hsave. simpl.
  destruct Hfile as [-> | (v & -> & Hv)]; [split; reflexivity|].
  destruct v; try (split; reflexivity).
  exfalso. eapply Hv. reflexivity.
Qed.

Lemma load_session_unreadable_witness :
  (_load_session (Some (PStr "garbage")) sample_backend).(sess) = blank_session
  /\ (_load_session (Some (PStr "garbage")) sample_backend).(_session_info)
     = empty_v2.
Proof.
  apply (load_session_unreadable (Some (PStr "garbage")) sample_backend).
  - reflexivity.
  - right. exists (PStr "garbage"). split; [reflexivity | discriminate].
Defined.



Lemma set_empty_v2 (k : string) (v : pyval) :
  "version" <> k -> Dict.set k v empty_v2 = [("version", PStr "2"); (k, v)].
Proof.
  intros Hne. unfold empty_v2, Dict.set.
  rewrite (eqb_false_of_ne _ _ Hne). reflexivity.
Qed.

Lemma save_session_file (file : session_file) (st : backend) :
  st.(cfg).(save_session) = true ->
  fst (_save_session Written file st)
  = Some (PDict (Dict.set st.(cfg).(username) (session_record st.(sess))
                   st.(_session_info))).
Proof. intros Hsave. unfold _save_session. rewrite Hsave. reflexivity. Qed.

(** A record that lacks a mandatory entry: the attributes read before the
    missing one stay restored, the container in memory is reset, and the
    file the next save writes holds this account only. *)
Theorem load_session_incomplete_record (file : session_file) (st : backend)
    (d record : pydict) (u : pyval) :
  st.(cfg).(save_session) = true ->
  Dict.get "version" d = Some (PStr "2") ->
  Dict.get st.(cfg).(username) d = Some (PDict record) ->
  Dict.get "user_id" record = Some u ->
  Dict.get "web_id" record = None ->
  let st1 := _load_session (Some (PDict d)) st in
  st1.(sess).(_user_id) = u
  /\ st1.(sess).(_token) = PNone
  /\ st1.(_session_info) = empty_v2
  /\ fst (_save_session Written file st1)
     = Some (PDict [("version", PStr "2");
                    (st.(cfg).(username), session_record st1.(sess))]).
Proof.
  intros Hsave Hv Hrec Hu Hw st1.
  assert (Hname : "version" <> username (cfg st)).
  { intros E. rewrite <- E, Hv in Hrec. discriminate. }
  assert (Hst1 : st1 =
    with_session_info empty_v2
      (with_sess {| _user_id := u; _web_id := PNone; _sub_id := PNone;
                    _token := PNone; _expires_in := PInt 0;
                    _browser_auth_code := PNone; _user_device_id := PNone |}
                 (with_sess blank_session st))).
  { unfold st1, _load_session. simpl. rewrite Hsave. simpl.
    unfold Dict.get_default. rewrite Hv, Hrec. simpl.
    unfold restore_fields, subscript. rewrite Hu, Hw. reflexivity. }
  rewrite Hst1. repeat split.
  rewrite save_session_file by exact Hsave.
  change (Some (PDict (Dict.set (username (cfg st))
                         (session_record (sess (with_session_info empty_v2
                            (with_sess {| _user_id := u; _web_id := PNone;
                                          _sub_id := PNone; _token := PNone;
                                          _expires_in := PInt 0;
                                          _browser_auth_code := PNone;
                                          _user_device_id := PNone |}
                               (with_sess blank_session st)))))
                         empty_v2))
          = Some (PDict [("version", PStr "2");
                         (username (cfg st),
                          session_record (sess (with_session_info empty_v2
                            (with_sess {| _user_id := u; _web_id := PNone;
                                          _sub_id := PNone; _token := PNone;
                                          _expires_in := PInt 0;
                                          _browser_auth_code := PNone;
                                          _user_device_id := PNone |}
                               (with_sess blank_session st)))))])).
  rewrite set_empty_v2 by exact Hname. reflexivity.
Qed.

Lemma load_session_incomplete_record_witness :
  let st1 := _load_session (Some (PDict shared_container)) sample_backend in
  st1.(sess).(_user_id) = PStr "U1"
  /\ st1.(sess).(_token) = PNone
  /\ st1.(_session_info) = empty_v2
  /\ fst (_save_session Written None st1)
     = Some (PDict [("version", PStr "2");
                    ("user@example.com", session_record st1.(sess))]).
Proof.
  apply (load_session_incomplete_record None sample_backend shared_container
           [("user_id", PStr "U1")] (PStr "U1")); reflexivity.
Defined.

(** ** Request executor *)

Section RequestFacts.
Context `{PyRuntime}.

(** A response whose HTTP status is not 200, on a request that reads the
    body: nothing is raised, the body returned is [None], and the status
    returned is the HTTP status or 500, never 200. *)
Theorem request_non_200_has_no_body (m : http_method) (stream raw : bool)
    (r : http_response) :
  reads_body m stream = true ->
  r.(status_code) <> 200 ->
  exists c : Z,
    fst (_request_tuple m stream raw (Some r)) = Return (c, Val PNone)
    /\ (c = r.(status_code) \/ c = 500)
    /\ c <> 200
    /\ _request m stream raw (Some r) = Return (Val PNone).
Proof.
  intros Hb Hs. unfold _request, _request_tuple. rewrite Hb.
  destruct (decode_body r) as [body|].
  - destruct (Z.eqb_spec (status_code r) 200) as [|_]; [contradiction|].
    simpl. exists (status_code r). repeat split; [left; reflexivity | exact Hs].
  - simpl. exists 500. repeat split; [right; reflexivity | discriminate].
Qed.

(** An object body without a "meta" entry never raises: it gives
    (200, data), with an empty object for a missing "data", when its
    "success" entry is truthy, and (500, None) otherwise, also when there
    is no "success" entry at all. *)
Theorem normalize_without_meta (b : pydict) :
  Dict.mem "meta" b = false ->
  fst (normalize (PDict b)) =
    if Py.truthy (Dict.get_default "success" PNone b)
    then Return (200, Val (Dict.get_default "data" (PDict []) b))
    else Return generic_failure.
Proof.
  intros Hm. unfold normalize. simpl. rewrite Hm. simpl.
  unfold Dict.mem, Dict.get_default.
  destruct (Dict.get "success" b) as [ok|]; [|reflexivity].
  destruct (Py.truthy ok); [|reflexivity].
  destruct (Dict.get "data" b); reflexivity.
Qed.

End RequestFacts.

Lemma request_non_200_has_no_body_witness :
  exists c : Z,
    fst (@_request_tuple plain_runtime POST false false
           (Some (json_reply 503 (PDict []))))
      = Return (c, Val PNone)
    /\ (c = 503 \/ c = 500)
    /\ c <> 200
    /\ @_request plain_runtime POST false false
         (Some (json_reply 503 (PDict []))) = Return (Val PNone).
Proof.
  apply (@request_non_200_has_no_body plain_runtime POST false false
           (json_reply 503 (PDict []))); [reflexivity | discriminate].
Defined.

Lemma normalize_without_meta_witness :
  fst (@normalize plain_runtime (PDict [("success", PBool true)]))
  = Return (200, Val (PDict [])).
Proof.
  apply (@normalize_without_meta plain_runtime [("success", PBool true)]).
  reflexivity.
Defined.

(** ** Event classifier and router, further *)

(** The classification of a payload with a string resource and an "error"
    entry that can be logged. *)
Lemma event_triples_text (resource_types : list string) (response : pydict)
    (resource : string) :
  Dict.get "resource" response = Some (PStr resource) ->
  error_loggable response = true ->
  event_triples resource_types response =
    if Py.startswith resource "subscriptions/" then Some []
    else if String.eqb resource "activeAutomations"
    then Some (automation_triples resource response)
    else if Dict.mem "states" response
    then
      let device_id := Dict.get_default "from" PNone response in
      if negb (Py.is_none device_id)
      then (fun v => [{| t_device := device_id; t_resource := "states";
                         t_event := v |}]) <$> Dict.get "states" response
      else Some []
    else if existsb (fun x => Py.startswith resource (x +:+ "/"))
              resource_types
    then
      match Py.split "/" resource with
      | _ :: device_id :: _ =>
          Some [{| t_device := PStr device_id; t_resource := resource;
                   t_event := PDict response |}]
      | _ => None
      end
    else if String.eqb resource "devices"
    then devices_triples resource response
    else if existsb (String.eqb resource) resource_types
    then properties_triples resource response
    else if Py.startswith resource "audioPlayback"
    then Some (audio_triples resource response)
    else Some (fallback_triples resource response).
Proof.
  intros Hres Herr. unfold event_triples.
  unfold error_loggable in Herr.
  unfold Dict.get_default at 1. rewrite Hres.
  destruct (Dict.get_default "error" PNone response);
    try discriminate Herr; reflexivity.
Qed.

(** A keep-alive acknowledgement reaches no subscriber, whatever is
    registered, the wildcard listeners included. *)
Theorem keepalive_reaches_nobody (st : backend) (response : pydict)
    (resource : string) :
  Dict.get "resource" response = Some (PStr resource) ->
  error_loggable response = true ->
  Py.startswith resource "subscriptions/" = true ->
  _event_dispatcher st response = ([], false).
Proof.
  intros Hres Herr Hsub. unfold _event_dispatcher.
  rewrite (event_triples_text _ _ _ Hres Herr), Hsub. reflexivity.
Qed.

Lemma keepalive_reaches_nobody_witness :
  _event_dispatcher (add_any_listener (Callback 7) sample_backend)
    [("resource", PStr "subscriptions/U1_web")] = ([], false).
Proof.
  apply (keepalive_reaches_nobody _ _ "subscriptions/U1_web"); reflexivity.
Defined.

Lemma dict_get_entry {V} (d : list (string * V)) (k : string) (v : V) :
  NoDup (Dict.keys d) -> (k, v) ∈ d -> Dict.get k d = Some v.
Proof.
  unfold Dict.keys. induction d as [|[k0 v0] d IH]; intros Hnd Hin.
  - apply elem_of_nil in Hin. contradiction.
  - simpl in Hnd. apply NoDup_cons in Hnd as [Hfresh Hnd].
    apply elem_of_cons in Hin as [Heq | Hin]; simpl.
    + injection Heq as -> ->. rewrite String.eqb_refl. reflexivity.
    + destruct (String.eqb_spec k0 k) as [-> | _].
      * exfalso. apply Hfresh. apply list_elem_of_fmap.
        exists (k, v). split; [reflexivity | exact Hin].
      * apply IH; assumption.
Qed.

Lemma automation_triples_sublist (resource : string) (d l : pydict) :
  (forall k v, (k, v) ∈ l -> Dict.get k d = Some v) ->
  omap (fun k =>
          if String.eqb k "resource" then None
          else (fun v => {| t_device := PStr k; t_resource := resource;
                            t_event := v |}) <$> Dict.get k d)
       (map fst l)
  = map (fun kv => {| t_device := PStr kv.1; t_resource := resource;
                      t_event := kv.2 |})
        (filter (fun kv => kv.1 <> "resource") l).
Proof.
  induction l as [|[k v] l IH]; intros Hall; [reflexivity|].
  assert (IH' := IH (fun k' v' Hin => Hall k' v' (list_elem_of_further _ _ _ Hin))).
  destruct (String.eqb_spec k "resource") as [-> | Hne].
  - rewrite filter_cons_False by (simpl; intros Hc; apply Hc; reflexivity).
    rewrite <- IH'. reflexivity.
  - rewrite filter_cons_True by exact Hne.
    change (map fst ((k, v) :: l)) with (k :: map fst l).
    cbn [omap list_omap].
    rewrite (eqb_false_of_ne _ _ Hne).
    rewrite (Hall k v) by (left).
    cbn [fmap option_fmap option_map]. cbn [map fst snd].
    f_equal. exact IH'.
Qed.

Lemma automation_triples_entries (resource : string) (response : pydict) :
  NoDup (Dict.keys response) ->
  automation_triples resource response =
    map (fun kv => {| t_device := PStr kv.1; t_resource := resource;
                      t_event := kv.2 |})
        (filter (fun kv => kv.1 <> "resource") response).
Proof.
  intros Hnd. unfold automation_triples, Dict.keys.
  apply automation_triples_sublist.
  intros k v. apply dict_get_entry, Hnd.
Qed.

(** A base station mode response (resource "activeAutomations") whose
    "error" entry is absent, null or an object fans out into one triple per
    entry other than "resource", in the order of the entries, keyed by the
    entry's name and carrying the entry's value; the keys of the payload
    are distinct, as those of a decoded object are. *)
Theorem automations_fan_out (resource_types : list string)
    (response : pydict) :
  Dict.get "resource" response = Some (PStr "activeAutomations") ->
  error_loggable response = true ->
  NoDup (Dict.keys response) ->
  event_triples resource_types response =
    Some (map (fun kv => {| t_device := PStr kv.1;
                            t_resource := "activeAutomations";
                            t_event := kv.2 |})
              (filter (fun kv => kv.1 <> "resource") response)).
Proof.
  intros Hres Herr Hnd.
  rewrite (event_triples_text _ _ _ Hres Herr). simpl.
  rewrite (automation_triples_entries _ _ Hnd). reflexivity.
Qed.

Lemma automations_fan_out_witness :
  event_triples ["cameras"] modes_of_two_bases =
    Some (map (fun kv => {| t_device := PStr kv.1;
                            t_resource := "activeAutomations";
                            t_event := kv.2 |})
              (filter (fun kv => kv.1 <> "resource") modes_of_two_bases)).
Proof.
  apply (automations_fan_out ["cameras"] modes_of_two_bases);
    [reflexivity | reflexivity | compute_done].
Defined.

Lemma event_triples_unclassified (resource_types : list string)
    (response : pydict) (resource : string) :
  Dict.get "resource" response = Some (PStr resource) ->
  error_loggable response = true ->
  unclassified resource_types response resource = true ->
  event_triples resource_types response
  = Some (fallback_triples resource response).
Proof.
  intros Hres Herr Hun. rewrite (event_triples_text _ _ _ Hres Herr).
  unfold unclassified in Hun.
  repeat (apply andb_true_iff in Hun as [Hun ?]).
  repeat match goal with
         | E : negb _ = true |- _ => apply negb_true_iff in E; rewrite E
         end.
  reflexivity.
Qed.

(** In the last branch a "deviceId" that is present but null hides the
    "uniqueId": the packet is routed nowhere, although the same packet
    without the "deviceId" entry is routed under the "uniqueId". *)
Theorem null_device_id_hides_unique_id (resource_types : list string)
    (response : pydict) (resource : string) (u : pyval) :
  Dict.get "resource" response = Some (PStr resource) ->
  error_loggable response = true ->
  unclassified resource_types response resource = true ->
  Dict.get "uniqueId" response = Some u ->
  u <> PNone ->
  (Dict.get "deviceId" response = Some PNone ->
   event_triples resource_types response = Some [])
  /\ (Dict.get "deviceId" response = None ->
      event_triples resource_types response =
        Some [{| t_device := u; t_resource := resource;
                 t_event := PDict response |}]).
Proof.
  intros Hres Herr Hun Hu Hne.
  rewrite (event_triples_unclassified _ _ _ Hres Herr Hun).
  unfold fallback_triples, Dict.get_default. rewrite Hu.
  split; intros ->; [reflexivity|].
  destruct u; try reflexivity. contradiction.
Qed.

Lemma null_device_id_hides_unique_id_witness :
  event_triples ["cameras"] null_device_packet = Some [].
Proof.
  apply (null_device_id_hides_unique_id ["cameras"] null_device_packet
           "mediaUploadNotification" (PStr "U-1_ABC123"));
    [reflexivity | reflexivity | reflexivity | reflexivity | discriminate
    | reflexivity].
Defined.

(** What a delivery that does not raise has called. *)
Lemma deliver_calls (reg : gmap string (list callback))
    (responses : list triple) :
  forall calls : list call,
    deliver reg responses = (calls, false) ->
    forall t, t ∈ responses ->
      exists cbs, callbacks_for reg t.(t_device) = Some cbs
        /\ forall cb, cb ∈ cbs ->
             {| c_callback := cb; c_resource := t.(t_resource);
                c_event := t.(t_event) |} ∈ calls.
Proof.
  induction responses as [|t0 rest IH]; intros calls Hd t Hin.
  - apply elem_of_nil in Hin. contradiction.
  - simpl in Hd.
    destruct (callbacks_for reg (t_device t0)) as [cbs0|] eqn:E0;
      [|discriminate].
    destruct (deliver reg rest) as [calls' raised] eqn:Erest.
    injection Hd as <- ->.
    apply elem_of_cons in Hin as [-> | Hin].
    + exists cbs0. split; [exact E0|]. intros cb Hcb.
      apply elem_of_app. left. apply list_elem_of_fmap.
      exists cb. split; [reflexivity | exact Hcb].
    + destruct (IH calls' eq_refl t Hin) as (cbs & Hc & Hall).
      exists cbs. split; [exact Hc|]. intros cb Hcb.
      apply elem_of_app. right. apply Hall, Hcb.
Qed.

Lemma callbacks_for_all (reg : gmap string (list callback))
    (device_id : pyval) (cbs all : list callback) (cb : callback) :
  callbacks_for reg device_id = Some cbs ->
  reg !! "all" = Some all ->
  cb ∈ all ->
  cb ∈ cbs.
Proof.
  unfold callbacks_for. intros Hc Hall Hin. rewrite Hall in Hc. simpl in Hc.
  destruct (Py.truthy device_id); [destruct device_id|];
    try discriminate; injection Hc as <-; try exact Hin.
  apply elem_of_app. right. exact Hin.
Qed.

(** A callback added with [add_any_listener] is called for every triple of
    every payload the dispatcher delivers without raising, with the
    triple's resource and sub-payload. *)
Theorem any_listener_gets_every_triple (cb : callback) (st : backend)
    (response : pydict) (responses : list triple) (calls : list call) :
  event_triples st.(_resource_types) response = Some responses ->
  _event_dispatcher (add_any_listener cb st) response = (calls, false) ->
  forall t, t ∈ responses ->
    {| c_callback := cb; c_resource := t.(t_resource);
       c_event := t.(t_event) |} ∈ calls.
Proof.
  intros Htr Hdisp t Hin. unfold _event_dispatcher in Hdisp.
  simpl in Hdisp. rewrite Htr in Hdisp.
  destruct (deliver_calls _ _ _ Hdisp t Hin) as (cbs & Hc & Hall).
  apply Hall.
  eapply callbacks_for_all; [exact Hc | apply append_callback_eq |].
  apply elem_of_app. right. apply list_elem_of_singleton. reflexivity.
Qed.

Lemma any_listener_gets_every_triple_witness :
  {| c_callback := Callback 7; c_resource := "activeAutomations";
     c_event := PList [PDict [("activeModes", PList [PStr "mode0"])]] |}
  ∈ fst (_event_dispatcher (add_any_listener (Callback 7) sample_backend)
           modes_of_two_bases).
Proof.
  apply (any_listener_gets_every_triple (Callback 7) sample_backend
           modes_of_two_bases
           (automation_triples "activeAutomations" modes_of_two_bases)
           (fst (_event_dispatcher (add_any_listener (Callback 7) sample_backend)
                   modes_of_two_bases))
           eq_refl eq_refl
           {| t_device := PStr "BASE02"; t_resource := "activeAutomations";
              t_event := PList [PDict [("activeModes", PList [PStr "mode0"])]] |}).
  vm_compute. right. left.
Defined.

Lemma classify_device_update (resource_types : list string)
    (response : pydict) (type id : string) :
  In type resource_types ->
  Py.has_char "/" type = false ->
  Py.has_char "/" id = false ->
  Dict.get "resource" response = Some (PStr (type +:+ "/" +:+ id)) ->
  error_loggable response = true ->
  Py.startswith (type +:+ "/" +:+ id) "subscriptions/" = false ->
  Dict.mem "states" response = false ->
  event_triples resource_types response =
    Some [{| t_device := PStr id; t_resource := type +:+ "/" +:+ id;
             t_event := PDict response |}].
Proof.
  intros Hin Htype Hid Hres Herr Hsub Hstates.
  rewrite (event_triples_text _ _ _ Hres Herr), Hsub.
  assert (Hauto : String.eqb (type +:+ "/" +:+ id) "activeAutomations" = false).
  { apply eqb_false_of_ne. intros E.
    apply (f_equal (Py.has_char "/")) in E.
    rewrite has_char_append in E. simpl in E.
    rewrite orb_true_r in E. discriminate E. }
  rewrite Hauto, Hstates.
  rewrite (existsb_In _ resource_types type Hin)
    by (rewrite <- append_assoc; apply startswith_append).
  change (type +:+ "/" +:+ id) with (type +:+ String "/" id).
  rewrite (split_append "/" type id Htype).
  destruct (split_head "/" id) as [tl ->].
  rewrite (upto_without "/" id Hid). reflexivity.
Qed.

(** A callback registered with [add_listener] for a device whose
    [device_id] is not empty and has no slash is called, with the resource
    and the whole payload, for a device update whose resource is
    "<type>/<device_id>" for a known type without a slash, that is not a
    keep-alive (the resource does not start with "subscriptions/"), has no
    "states" entry and whose "error" entry is absent, null or an object;
    the dispatcher does not raise on it. *)
Theorem listener_receives_device_update (dev : device) (cb : callback)
    (st : backend) (response : pydict) (type : string) :
  In type st.(_resource_types) ->
  Py.has_char "/" type = false ->
  Py.has_char "/" dev.(device_id) = false ->
  dev.(device_id) <> "" ->
  Dict.get "resource" response
    = Some (PStr (type +:+ "/" +:+ dev.(device_id))) ->
  error_loggable response = true ->
  Py.startswith (type +:+ "/" +:+ dev.(device_id)) "subscriptions/" = false ->
  Dict.mem "states" response = false ->
  snd (_event_dispatcher (add_listener dev cb st) response) = false
  /\ {| c_callback := cb;
        c_resource := type +:+ "/" +:+ dev.(device_id);
        c_event := PDict response |}
     ∈ fst (_event_dispatcher (add_listener dev cb st) response).
Proof.
  intros Hin Htype Hid Hne Hres Herr Hsub Hstates.
  unfold _event_dispatcher.
  change (_resource_types (add_listener dev cb st)) with (_resource_types st).
  rewrite (classify_device_update _ _ _ _ Hin Htype Hid Hres Herr Hsub Hstates).
  cbn [deliver t_device t_resource t_event].
  rewrite (callbacks_for_text _ _ Hne).
  split; [reflexivity|].
  cbn [fst]. rewrite app_nil_r.
  apply list_elem_of_fmap. exists cb. split; [reflexivity|].
  apply elem_of_app. left.
  change (_callbacks (add_listener dev cb st))
    with (append_callback (unique_id dev) cb
            (append_callback (device_id dev) cb (_callbacks st))).
  destruct (decide (device_id dev = unique_id dev)) as [E | E].
  - rewrite <- E, append_callback_eq. simpl.
    apply elem_of_app. right. apply list_elem_of_singleton. reflexivity.
  - rewrite append_callback_ne by congruence.
    rewrite append_callback_eq. simpl.
    apply elem_of_app. right. apply list_elem_of_singleton. reflexivity.
Qed.

Lemma listener_receives_device_update_witness :
  snd (_event_dispatcher (add_listener front_door (Callback 1) sample_backend)
         plain_update) = false
  /\ {| c_callback := Callback 1;
        c_resource := "cameras" +:+ "/" +:+ front_door.(device_id);
        c_event := PDict plain_update |}
     ∈ fst (_event_dispatcher (add_listener front_door (Callback 1) sample_backend)
              plain_update).
Proof.
  apply (listener_receives_device_update front_door (Callback 1)
           sample_backend plain_update "cameras");
    [left; reflexivity | reflexivity | reflexivity | discriminate
    | reflexivity | reflexivity | reflexivity | reflexivity].
Defined.

Section HandleFacts.
Context `{PyRuntime}.

(** A payload on which the dispatcher raises (its resource is not a
    string, or its "error" entry is neither null nor an object) calls no
    subscriber and resolves no pending transaction, whatever transaction
    identifier it carries. *)
Theorem undispatchable_payload_resolves_nothing (response : pydict)
    (st : backend) :
  ((exists v, Dict.get "resource" response = Some v /\ forall s, v <> PStr s)
   \/ error_loggable response = false) ->
  _event_handle_response response st = (st, [], true).
Proof.
  intros Hbad.
  assert (Hnone : event_triples st.(_resource_types) response = None).
  { unfold event_triples. destruct Hbad as [(v & Hv & Hns) | Herr].
    - unfold Dict.get_default at 1. rewrite Hv.
      destruct v; try reflexivity. exfalso. eapply Hns. reflexivity.
    - unfold error_loggable in Herr.
      destruct (Dict.get_default "resource" (PStr "") response);
        try reflexivity.
      destruct (Dict.get_default "error" PNone response);
        try discriminate Herr; reflexivity. }
  unfold _event_handle_response, _event_dispatcher. rewrite Hnone.
  reflexivity.
Qed.

(** [_event_handle_response] changes nothing but [_requests]. *)
Lemma handle_response_frame (response : pydict) (st : backend) :
  exists requests,
    fst (fst (_event_handle_response response st)) = with_requests requests st.
Proof.
  unfold _event_handle_response.
  destruct (_event_dispatcher st response) as [calls [|]].
  - exists st.(_requests). destruct st. reflexivity.
  - destruct (correlate response (_requests st)) as [requests raised].
    exists requests. reflexivity.
Qed.

End HandleFacts.

Lemma undispatchable_payload_resolves_nothing_witness :
  @_event_handle_response plain_runtime
    [("transId", PStr "FE!1"); ("resource", PInt 5)] waiting_backend
  = (waiting_backend, [], true).
Proof.
  apply (@undispatchable_payload_resolves_nothing plain_runtime).
  left. exists (PInt 5). split; [reflexivity | discriminate].
Defined.

(** ** Transaction correlator, further *)

Lemma overwrites_only_refl (v : pyval) (requests : pydict) :
  overwrites_only v requests requests.
Proof. intros k. split; [reflexivity | left; reflexivity]. Qed.

Lemma overwrites_only_trans (v : pyval) (r0 r1 r2 : pydict) :
  overwrites_only v r0 r1 -> overwrites_only v r1 r2 -> overwrites_only v r0 r2.
Proof.
  intros H01 H12 k. destruct (H01 k) as [Hd1 Hv1], (H12 k) as [Hd2 Hv2].
  split; [rewrite Hd2; exact Hd1|].
  destruct Hv2 as [-> | ->]; [exact Hv1 | right; reflexivity].
Qed.

Lemma overwrites_only_insert (v : pyval) (requests : pydict) (t : string) :
  Dict.mem t requests = true -> overwrites_only v requests (Dict.set t v requests).
Proof.
  intros Hs k. destruct (String.eqb_spec t k) as [<- | Hne].
  - rewrite dict_get_set_eq. split; [|right; reflexivity].
    split; [intros _; apply registered_true, Hs | intros _; eexists; reflexivity].
  - rewrite dict_get_set_ne by exact Hne.
    split; [reflexivity | left; reflexivity].
Qed.

Lemma overwrites_only_mem (v : pyval) (r0 r1 : pydict) (k : string) :
  overwrites_only v r0 r1 -> Dict.mem k r0 = true -> Dict.mem k r1 = true.
Proof.
  intros Ho Hm. destruct (Ho k) as [Hd _].
  apply registered_true, Hd, registered_true, Hm.
Qed.

Section CorrelatorFacts.
Context `{PyRuntime}.

(** Also when it stops at a key that does not compile, the pattern loop
    has only overwritten entries. *)
Lemma overwrites_only_loop (v : pyval) (target : string) (keys : list string) :
  forall requests : pydict,
    (forall request, In request keys -> Dict.mem request requests = true) ->
    overwrites_only v requests (fst (resolve_loop keys target v requests)).
Proof.
  induction keys as [|request keys IH]; intros requests Hin;
    [apply overwrites_only_refl|].
  cbn [resolve_loop].
  destruct (re_compiles request); [|apply overwrites_only_refl].
  assert (Hstep : overwrites_only v requests
                    (if re_match request target
                     then Dict.set request v requests else requests)).
  { destruct (re_match request target); [|apply overwrites_only_refl].
    apply overwrites_only_insert, Hin. left. reflexivity. }
  eapply overwrites_only_trans; [exact Hstep|].
  apply IH. intros r Hr.
  eapply overwrites_only_mem; [exact Hstep|]. apply Hin. right. exact Hr.
Qed.

Lemma overwrites_only_matching (v : pyval) (requests : pydict)
    (target : string) :
  overwrites_only v requests (fst (resolve_matching target v requests)).
Proof.
  unfold resolve_matching. apply overwrites_only_loop.
  intros request. apply dict_in_keys_mem.
Qed.

Lemma store_by_tid_overwrites (response : pydict)
    (requests requests1 : pydict) :
  store_by_tid response requests = Some requests1 ->
  overwrites_only (PDict response) requests requests1.
Proof.
  unfold store_by_tid.
  destruct (Py.truthy _);
    [destruct (Dict.get_default "transId" PNone response)|];
    intros E; try discriminate E; injection E as <-;
    try apply overwrites_only_refl.
  destruct (Dict.mem s requests) eqn:Hs;
    [apply overwrites_only_insert, Hs | apply overwrites_only_refl].
Qed.

Lemma store_by_resource_overwrites (response : pydict) (requests : pydict) :
  overwrites_only (PDict response) requests
    (fst (store_by_resource response requests)).
Proof.
  unfold store_by_resource.
  destruct (Py.truthy (Dict.get_default "resource" PNone response));
    [|apply overwrites_only_refl].
  destruct (Dict.get_default "resource" PNone response) as [| | |r| |];
    try apply overwrites_only_refl.
  - destruct (Py.truthy _); simpl; [apply overwrites_only_matching|].
    apply overwrites_only_refl.
  - destruct (Py.truthy _); simpl; [apply overwrites_only_matching|].
    apply overwrites_only_refl.
  - destruct (Py.truthy _); simpl; [apply overwrites_only_matching|].
    apply overwrites_only_refl.
  - destruct (Dict.mem r requests) eqn:Hs.
    + apply overwrites_only_insert, Hs.
    + destruct (Py.truthy _); simpl; apply overwrites_only_matching.
Qed.

(** Whatever the payload, also one on which it raises, the correlator
    neither registers nor removes a key, and every entry keeps its value
    or takes the payload. *)
Theorem correlate_overwrites_registered_only (response : pydict)
    (requests : pydict) :
  overwrites_only (PDict response) requests
    (fst (correlate response requests)).
Proof.
  unfold correlate.
  destruct (store_by_tid response requests) as [requests1|] eqn:E;
    [|apply overwrites_only_refl].
  eapply overwrites_only_trans;
    [apply store_by_tid_overwrites, E | apply store_by_resource_overwrites].
Qed.


(** A payload whose resource is a registered, non-empty key is stored
    under it, provided the test of its transaction identifier does not
    raise. *)
Lemma correlate_resolves_resource (response : pydict) (requests : pydict)
    (key : string) :
  Dict.get "resource" response = Some (PStr key) ->
  key <> "" ->
  text_or_absent (Dict.get_default "transId" PNone response) = true ->
  Dict.mem key requests = true ->
  Dict.get key (fst (correlate response requests)) = Some (PDict response).
Proof.
  intros Hres Hne Htid Hreg. unfold correlate.
  destruct (store_by_tid_text response requests Htid)
    as (requests1 & -> & Hreg1 & _).
  assert (Hmem : Dict.mem key requests1 = true).
  { change (registered requests1 key = true). rewrite Hreg1. exact Hreg. }
  unfold store_by_resource, Dict.get_default. rewrite Hres.
  cbn [Py.truthy]. rewrite (eqb_false_of_ne _ _ Hne). cbn [negb].
  rewrite Hmem. cbn [fst]. apply dict_get_set_eq.
Qed.

(** On an event the dispatcher delivers without raising, the event thread
    leaves the map the correlator leaves. *)
Lemma event_thread_handles_correlate (event : pydict) (st : backend)
    (requests : pydict) :
  snd (_event_dispatcher st event) = false ->
  event_thread_handles event st requests = fst (correlate event requests).
Proof.
  intros Hd. unfold event_thread_handles, _event_handle_response.
  change (_event_dispatcher (with_requests requests st) event)
    with (_event_dispatcher st event).
  destruct (_event_dispatcher st event) as [calls raised].
  simpl in Hd. subst raised.
  change (_requests (with_requests requests st)) with requests.
  destruct (correlate event requests) as [r b]. reflexivity.
Qed.

Lemma wait_loop_resolved (tid : string) (mend mnow : Z)
    (requests : pydict) (wakes : list wake) (v : pyval) :
  Dict.get tid requests = Some v ->
  v <> PNone ->
  wait_loop tid mend mnow requests wakes = (v, Dict.remove tid requests).
Proof.
  intros Hv Hne. unfold pop_transaction.
  destruct wakes; simpl; unfold pop_transaction; rewrite Hv;
    destruct (mnow <? mend); try reflexivity;
    destruct v; try reflexivity; contradiction.
Qed.


(** [post] in "resource" mode without [tid]: the key is the first key of
    [params]; when the POST does not raise and the event thread handles an
    event that the dispatcher delivers without raising, whose resource is
    that key (not the empty string) and whose transaction identifier is a
    string or absent, the call returns that event and the key is no longer
    pending. *)
Theorem post_resource_returns_event (params event : pydict) (key : string)
    (raw : bool) (timeout : option Z) (sent : option http_response)
    (now : Z) (wakes : list wake) (st : backend) (b : reply) :
  head (Dict.keys params) = Some key ->
  key <> "" ->
  _request POST false raw sent = Return b ->
  Dict.get "resource" event = Some (PStr key) ->
  text_or_absent (Dict.get_default "transId" PNone event) = true ->
  snd (_event_dispatcher st event) = false ->
  let run := post_resource (Some params) None raw timeout sent
               (event_thread_handles event st) now wakes st in
  fst run = Return (PDict event)
  /\ Dict.get key (snd run).(_requests) = None.
Proof.
  intros Hkey Hne Hreq Hres Htid Hdisp run. subst run.
  unfold post_resource, _start_transaction. rewrite Hkey, Hreq.
  assert (Hlook : Dict.get key
                    (event_thread_handles event st
                       (Dict.set key PNone st.(_requests)))
                  = Some (PDict event)).
  { rewrite (event_thread_handles_correlate _ _ _ Hdisp).
    apply correlate_resolves_resource;
      [exact Hres | exact Hne | exact Htid |].
    unfold Dict.mem. rewrite dict_get_set_eq. reflexivity. }
  unfold _wait_for_transaction.
  cbn [_requests with_requests].
  rewrite (wait_loop_resolved key _ now _ wakes (PDict event) Hlook)
    by discriminate.
  cbn [fst snd _requests with_requests].
  split; [reflexivity | apply dict_get_remove_eq].
Qed.

(** When the POST raises, [post] in "resource" mode and [notify] in
    "event" mode end with the exception and leave their key registered and
    unresolved: nothing waits for it and nothing removes it. *)
Theorem raising_post_leaves_transaction (params : pydict) (key fresh to : string)
    (body : pydict) (raw : bool) (timeout : option Z)
    (sent : option http_response)
    (in_flight : pydict -> pydict)
    (now : Z) (wakes : list wake) (st : backend) :
  head (Dict.keys params) = Some key ->
  _request POST false raw sent = Raise ->
  _request POST false false sent = Raise ->
  (let run := post_resource (Some params) None raw timeout sent in_flight
                now wakes st in
   fst run = Raise /\ Dict.get key (snd run).(_requests) = Some PNone)
  /\ (let run := notify_event to body timeout fresh sent in_flight
                   now wakes st in
      fst run = Raise /\ Dict.get fresh (snd run).(_requests) = Some PNone).
Proof.
  intros Hkey Hraw Hplain. split.
  - unfold post_resource, _start_transaction. rewrite Hkey, Hraw.
    split; [reflexivity | apply dict_get_set_eq].
  - unfold notify_event, _start_transaction, _notify. rewrite Hplain.
    split; [reflexivity | apply dict_get_set_eq].
Qed.

End CorrelatorFacts.


Lemma post_resource_returns_event_witness :
  fst (@post_resource plain_runtime
         (Some [("activeAutomations", PList [])]) None false (Some 10)
         (Some (json_reply 200 (PDict [("success", PBool true)])))
         (@event_thread_handles plain_runtime automations_event sample_backend)
         0 [] sample_backend)
  = Return (PDict automations_event).
Proof.
  apply (@post_resource_returns_event plain_runtime
           [("activeAutomations", PList [])] automations_event
           "activeAutomations" false (Some 10)
           (Some (json_reply 200 (PDict [("success", PBool true)])))
           0 [] sample_backend (Val (PDict [])));
    [reflexivity | discriminate | reflexivity | reflexivity | reflexivity
    | reflexivity].
Defined.

Lemma raising_post_leaves_transaction_witness :
  Dict.get "activeAutomations"
    (snd (@post_resource plain_runtime
            (Some [("activeAutomations", PList [])]) None false (Some 10)
            (Some number_reply) (fun r => r) 0 [] sample_backend)).(_requests)
  = Some PNone.
Proof.
  apply (@raising_post_leaves_transaction plain_runtime
           [("activeAutomations", PList [])] "activeAutomations" "FE!9"
           "BASE01" [] false (Some 10) (Some number_reply) (fun r => r) 0 []
           sample_backend); reflexivity.
Defined.

Lemma dict_mem_set_ne {V} (k k' : string) (v : V) (d : list (string * V)) :
  k <> k' -> Dict.mem k' (Dict.set k v d) = Dict.mem k' d.
Proof. intros Hne. unfold Dict.mem. rewrite dict_get_set_ne by exact Hne. reflexivity. Qed.

(** The body [_notify] posts: "to" is the base station, "transId" the
    transaction identifier, "from" the caller's own value when the body
    had one and the web id otherwise; every other entry is the caller's. *)
Theorem notify_body_fields (to : string) (web_id : pyval) (trans_id : string)
    (body : pydict) :
  let sent := notify_body to web_id trans_id body in
  Dict.get "to" sent = Some (PStr to)
  /\ Dict.get "transId" sent = Some (PStr trans_id)
  /\ Dict.get "from" sent
     = Some (match Dict.get "from" body with Some v => v | None => web_id end)
  /\ (forall k, k <> "to" -> k <> "from" -> k <> "transId" ->
                Dict.get k sent = Dict.get k body).
Proof.
  intros sent. subst sent. unfold notify_body.
  rewrite (dict_mem_set_ne "to" "from") by discriminate.
  unfold Dict.mem.
  destruct (Dict.get "from" body) as [v|] eqn:Hfrom.
  - repeat split.
    + rewrite dict_get_set_ne by discriminate. apply dict_get_set_eq.
    + apply dict_get_set_eq.
    + rewrite !dict_get_set_ne by discriminate. exact Hfrom.
    + intros k H1 H2 H3. rewrite !dict_get_set_ne by congruence. reflexivity.
  - repeat split.
    + rewrite !dict_get_set_ne by discriminate. apply dict_get_set_eq.
    + apply dict_get_set_eq.
    + rewrite dict_get_set_ne by discriminate. apply dict_get_set_eq.
    + intros k H1 H2 H3. rewrite !dict_get_set_ne by congruence. reflexivity.
Qed.

Lemma notify_body_fields_witness :
  Dict.get "action" (notify_body "BASE01" (PStr "U1_web") "FE!9"
                       [("action", PStr "get")])
  = Dict.get "action" [("action", PStr "get")].
Proof.
  destruct (notify_body_fields "BASE01" (PStr "U1_web") "FE!9"
              [("action", PStr "get")]) as (_ & _ & _ & Hrest).
  apply Hrest; discriminate.
Defined.

(** ** Event supervisor, further *)

Lemma waits_from_never_connected (thread : nat -> backend -> backend) :
  (forall n s, s.(_event_connected) = false ->
               (thread n s).(_event_connected) = false) ->
  forall (n c : nat) (st : backend),
    st.(_event_connected) = false ->
    (waits_from thread c n st).(_event_connected) = false.
Proof.
  intros Hnever. induction n as [|n IH]; intros c st Hst; simpl.
  - exact Hst.
  - apply IH, Hnever, Hst.
Qed.

(** [start_monitoring] waits at least once, because it clears the flag
    before it looks at it; and with an event thread that never sets the
    flag it waits the full 30 times and returns with the flag false. *)
Theorem start_monitoring_waits (topics : list string)
    (thread : nat -> backend -> backend) (st : backend) :
  let m := start_monitoring topics thread st in
  (1 <= m.(m_waits))%nat
  /\ ((forall n s, s.(_event_connected) = false ->
                   (thread n s).(_event_connected) = false) ->
      m.(m_waits) = 30%nat /\ m.(m_state).(_event_connected) = false).
Proof.
  intros m. subst m. unfold start_monitoring.
  set (st0 := with_event_connected false
                (with_event_client false (_select_backend topics st))).
  destruct (wait_stream_up_spec thread 30 0 st0) as (n & Heq & Hn & Hend & Hbefore);
    [lia | lia |].
  rewrite Heq. simpl in *. split.
  - destruct n as [|n]; [|lia].
    simpl in Hend. destruct Hend as [Hc | Hc]; [discriminate Hc | lia].
  - intros Hnever.
    assert (Hoff : (waits_from thread 0 n st0).(_event_connected) = false)
      by (apply waits_from_never_connected; [exact Hnever | reflexivity]).
    split; [|exact Hoff].
    destruct Hend as [Hc | Hc]; [congruence | exact Hc].
Qed.

Lemma start_monitoring_waits_witness :
  (start_monitoring [] silent_thread sample_backend).(m_waits) = 30%nat
  /\ (start_monitoring [] silent_thread sample_backend).(m_state).(_event_connected)
     = false.
Proof.
  apply (start_monitoring_waits [] silent_thread sample_backend).
  intros n s Hs. exact Hs.
Defined.

Section StreamFacts.
Context `{PyRuntime}.

(** Nothing that follows a logout notice, an undecodable event, a [None]
    or an exception in the stream is handled. *)
Theorem sse_events_stop (pre rest : list sse_event) (e : sse_event)
    (st : backend) :
  ends_stream e = true ->
  sse_events (pre ++ e :: rest) st = sse_events (pre ++ [e]) st.
Proof.
  intros He. revert st. induction pre as [|p pre IH]; intros st.
  - simpl. destruct e as [|[[| | | | |response]|]|]; try reflexivity.
    simpl in He. rewrite He. reflexivity.
  - simpl. destruct p as [|[[| | | | |response]|]|]; try reflexivity.
    destruct (Py.eq_str _ "logout"); [reflexivity|].
    destruct (Py.eq_str _ "connected"); [apply IH|].
    destruct (_event_handle_response response st) as [[st' calls] [|]];
      [reflexivity|].
    rewrite IH. reflexivity.
Qed.

(** The stream loop changes nothing but [_requests] and
    [_event_connected], and it never clears [_event_connected]. *)
Theorem sse_events_frame (events : list sse_event) (st : backend) :
  exists (requests : pydict) (connected : bool),
    fst (sse_events events st)
      = with_requests requests (with_event_connected connected st)
    /\ (st.(_event_connected) = true -> connected = true).
Proof.
  revert st. induction events as [|e events IH]; intros st.
  - exists st.(_requests), st.(_event_connected).
    split; [destruct st; reflexivity | intros E; exact E].
  - assert (Hsame : exists (requests : pydict) (connected : bool),
              st = with_requests requests (with_event_connected connected st)
              /\ (st.(_event_connected) = true -> connected = true)).
    { exists st.(_requests), st.(_event_connected).
      split; [destruct st; reflexivity | intros E; exact E]. }
    simpl. destruct e as [|[[| | | | |response]|]|]; try exact Hsame.
    destruct (Py.eq_str _ "logout"); [exact Hsame|].
    destruct (Py.eq_str _ "connected").
    + destruct (IH (with_event_connected true st)) as (r & c & -> & Hc).
      exists r, c. split; [destruct st; reflexivity|].
      intros _. apply Hc. reflexivity.
    + destruct (handle_response_frame response st) as (r1 & Hr1).
      destruct (_event_handle_response response st) as [[st' calls] raised].
      simpl in Hr1. subst st'.
      destruct raised.
      * exists r1, st.(_event_connected).
        split; [destruct st; reflexivity | intros E; exact E].
      * destruct (IH (with_requests r1 st)) as (r & c & Heq & Hc).
        destruct (sse_events events (with_requests r1 st)) as [st'' calls'].
        simpl in Heq. subst st''.
        exists r, c. split; [destruct st; reflexivity | exact Hc].
Qed.

End StreamFacts.

Lemma sse_events_stop_witness :
  @sse_events plain_runtime
    ([SseData (Some (PDict [("status", PStr "connected")]))]
     ++ SseData None :: [SseData (Some (PDict plain_update))])
    sample_backend
  = @sse_events plain_runtime
      ([SseData (Some (PDict [("status", PStr "connected")]))]
       ++ [SseData None])
      sample_backend.
Proof.
  apply (@sse_events_stop plain_runtime). reflexivity.
Defined.

Lemma sse_events_frame_witness :
  exists (requests : pydict) (connected : bool),
    fst (@sse_events plain_runtime logged_out_stream
           (with_event_connected true sample_backend))
      = with_requests requests
          (with_event_connected connected
             (with_event_connected true sample_backend))
    /\ connected = true.
Proof.
  destruct (@sse_events_frame plain_runtime logged_out_stream
              (with_event_connected true sample_backend))
    as (requests & connected & Heq & Hc).
  exists requests, connected. split; [exact Heq | apply Hc; reflexivity].
Defined.

(** What the passes of the re-login loop leave alone, the loop leaves
    alone. *)
Lemma relogin_frame (steps : list (backend -> outcome bool * backend)) :
  forall st : backend,
    (forall step s, In step steps ->
        (snd (step s)).(_requests) = s.(_requests)
        /\ (snd (step s)).(_event_client) = s.(_event_client)) ->
    (relogin_state (relogin steps st)).(_requests) = st.(_requests)
    /\ (relogin_state (relogin steps st)).(_event_client) = st.(_event_client).
Proof.
  induction steps as [|step steps IH]; intros st Hkeep; simpl.
  - destruct (_logged_in st); split; reflexivity.
  - destruct (_logged_in st); [split; reflexivity|].
    destruct (Hkeep step st (or_introl eq_refl)) as [Hr Hc].
    destruct (step st) as [[r|] st']; simpl in Hr, Hc.
    + destruct (IH (with_logged_in r st')
                  (fun step' s Hin => Hkeep step' s (or_intror Hin)))
        as [Hr' Hc'].
      rewrite Hr', Hc'. split; [exact Hr | exact Hc].
    + split; [exact Hr | exact Hc].
Qed.

(** Provided the passes of the re-login loop leave the pending map and the
    event client as they are ([_login] writes neither), the supervisor
    stands, wherever it stands (stopped, inside the re-login loop, at the
    head of its loop, or ended by an exception of [_login]), with the
    pending map and the event client it was started with, or with the
    empty map and no event client: no transaction that is pending when a
    pass of the outer loop ends outlives it. *)
Theorem event_main_between_passes (rounds : list round) (st : backend) :
  (forall r step s, In r rounds -> In step r.(logins) ->
      (snd (step s)).(_requests) = s.(_requests)
      /\ (snd (step s)).(_event_client) = s.(_event_client)) ->
  let sup := fst (_event_main rounds st) in
  ((state_of sup).(_requests) = st.(_requests)
   /\ (state_of sup).(_event_client) = st.(_event_client))
  \/ ((state_of sup).(_requests) = []
      /\ (state_of sup).(_event_client) = false).
Proof.
  intros Hkeep. cbv zeta. revert st.
  induction rounds as [|r rounds IH]; intros st; simpl.
  - destruct (_stop_thread st); left; split; reflexivity.
  - destruct (_stop_thread st); [left; split; reflexivity|].
    pose proof (relogin_frame r.(logins) st
                  (fun step s Hin => Hkeep r step s (or_introl eq_refl) Hin))
      as Hframe.
    destruct (relogin (logins r) st) as [st1|st1|st1]; simpl in Hframe;
      try (left; exact Hframe).
    destruct (transport r st1) as [st2 calls].
    specialize (IH (fun r' step s Hr => Hkeep r' step s (or_intror Hr))
                   (clear_down st2)).
    destruct (_event_main rounds (clear_down st2)) as [sup calls'].
    simpl in *. right. destruct IH as [IH | IH]; exact IH.
Qed.

Lemma event_main_stopped (rounds : list round) (st : backend) :
  st.(_stop_thread) = true -> _event_main rounds st = (Stopped st, []).
Proof. intros Hs. destruct rounds; simpl; rewrite Hs; reflexivity. Qed.

(** When the stop flag is set while the transport runs, the pass still
    clears down, and no later pass is started. *)
Theorem event_main_stop_during_pass (r : round) (rounds : list round)
    (st st1 st2 : backend) (calls : list call) :
  st.(_stop_thread) = false ->
  relogin r.(logins) st = LoggedIn st1 ->
  r.(transport) st1 = (st2, calls) ->
  st2.(_stop_thread) = true ->
  _event_main (r :: rounds) st = (Stopped (clear_down st2), calls).
Proof.
  intros Hrun Hlogin Htr Hstop.
  rewrite (event_main_pass r rounds st st1 Hrun Hlogin), Htr.
  rewrite (event_main_stopped rounds (clear_down st2)) by exact Hstop.
  rewrite app_nil_r. reflexivity.
Qed.

Lemma event_main_between_passes_witness :
  let sup := fst (_event_main [failed_relogin_round] waiting_backend) in
  ((state_of sup).(_requests) = waiting_backend.(_requests)
   /\ (state_of sup).(_event_client) = waiting_backend.(_event_client))
  \/ ((state_of sup).(_requests) = []
      /\ (state_of sup).(_event_client) = false).
Proof.
  apply (event_main_between_passes [failed_relogin_round] waiting_backend).
  intros r step s [<- | []] [<- | []]. split; reflexivity.
Defined.

(** A re-login that fails after [_auth] stored a new session leaves the
    supervisor in the re-login loop with the new session written and the
    pending map as it was. *)
Lemma failed_relogin_keeps_pending :
  fst (_event_main [failed_relogin_round] waiting_backend)
  = Relogging (with_sess sample_session waiting_backend)
  /\ Dict.get "FE!1" (with_sess sample_session waiting_backend).(_requests)
     = Some PNone.
Proof. split; reflexivity. Qed.

Lemma event_main_stop_during_pass_witness :
  _event_main (stopping_round :: [logged_out_round])
    (with_logged_in true waiting_backend)
  = (Stopped (clear_down (_event_stop_loop (with_logged_in true waiting_backend))),
     []).
Proof.
  apply (event_main_stop_during_pass stopping_round [logged_out_round]
           (with_logged_in true waiting_backend)
           (with_logged_in true waiting_backend)
           (_event_stop_loop (with_logged_in true waiting_backend)) []);
    reflexivity.
Defined.

(** ** Authenticator, further *)

Section AuthMore.
Context `{PyRuntime}.
Variable to_b64 : pyval -> option string.
Variable second_factor :
  backend -> pyval -> outcome AuthResult * backend * list Z.

Lemma submit_credentials_first (server : nat -> option http_response)
    (left attempt : nat) (last : Z * reply) :
  (S attempt <= snd (fst (submit_credentials server (S left) attempt last)))%nat.
Proof.
  simpl. destruct (fst (auth_post (server (S attempt)))) as [[code body]|];
    [|simpl; lia].
  destruct ((code =? 200) || (code =? 401)); [simpl; lia|].
  pose proof (submit_credentials_bound server left (S attempt) (code, body)) as Hb.
  destruct (submit_credentials server left (S attempt) (code, body))
    as [[r n] sleeps].
  simpl. lia.
Qed.

Lemma auth_counts (server : nat -> option http_response) (st : backend) :
  (_auth to_b64 second_factor server st).(a_attempts)
    = snd (fst (submit_credentials server 3 0 (0, Val PNone)))
  /\ exists more : list Z,
       (_auth to_b64 second_factor server st).(a_sleeps)
         = snd (submit_credentials server 3 0 (0, Val PNone)) ++ more
       /\ (more = []
           \/ exists st' body, more = snd (second_factor st' body)).
Proof.
  assert (Hnone : forall l : list Z,
            exists more : list Z,
              l = l ++ more
              /\ (more = []
                  \/ exists st' body, more = snd (second_factor st' body))).
  { intros l. exists []. rewrite app_nil_r. split; [reflexivity | left; reflexivity]. }
  unfold _auth.
  destruct (submit_credentials server 3 0 (0, Val PNone)) as [[r n] sleeps].
  destruct r as [[code body]|]; [|split; [reflexivity | apply Hnone]].
  destruct (reply_is_none body); [split; [reflexivity | apply Hnone]|].
  destruct (negb (code =? 200)); [split; [reflexivity | apply Hnone]|].
  destruct body as [body|]; [|split; [reflexivity | apply Hnone]].
  destruct (_update_auth_info to_b64 body (sess st)) as [s [|]];
    [split; [reflexivity | apply Hnone]|].
  destruct (subscript body "authCompleted") as [completed|];
    [|split; [reflexivity | apply Hnone]].
  destruct (Py.truthy completed); [split; [reflexivity | apply Hnone]|].
  destruct (second_factor (with_sess s st) body) as [[res st'] more] eqn:E.
  split; [reflexivity|]. exists more. split; [reflexivity|].
  right. exists (with_sess s st), body. rewrite E. reflexivity.
Qed.

(** Whatever the endpoint answers, [_auth] posts the credentials at least
    once and at most 3 times; the sleeps of the login loop come first, each
    lasts 3 and there are no more of them than attempts; every sleep after
    them is one the two-factor sub-flow made. *)
Theorem auth_attempt_bounds (server : nat -> option http_response)
    (st : backend) :
  let run := _auth to_b64 second_factor server st in
  let login_sleeps := snd (submit_credentials server 3 0 (0, Val PNone)) in
  (1 <= run.(a_attempts) <= 3)%nat
  /\ (length login_sleeps <= run.(a_attempts))%nat
  /\ Forall (fun d => d = 3) login_sleeps
  /\ exists more : list Z,
       run.(a_sleeps) = login_sleeps ++ more
       /\ (more = []
           \/ exists st' body, more = snd (second_factor st' body)).
Proof.
  cbv zeta. destruct (auth_counts server st) as [-> Hsleeps].
  pose proof (submit_credentials_bound server 3 0 (0, Val PNone)) as Hb.
  pose proof (submit_credentials_first server 2 0 (0, Val PNone)) as Hf.
  destruct (submit_credentials server 3 0 (0, Val PNone)) as [[r n] sleeps].
  simpl in *. destruct Hb as (Hn & Hlen & Hall).
  split; [lia|]. split; [lia|]. split; [exact Hall | exact Hsleeps].
Qed.

(** When none of three answers has code 200 or 401, [_auth] gives up after
    the third: it has slept 3 after each of them, the last one included,
    the session attributes are untouched, and the result is CAN_RETRY when
    the last answer had no body and FAILED when it had one. *)
Theorem auth_retries_exhausted (server : nat -> option http_response)
    (st : backend) :
  (forall n, exists c b, fst (auth_post (server n)) = Return (c, b)
                         /\ c <> 200 /\ c <> 401) ->
  let run := _auth to_b64 second_factor server st in
  run.(a_attempts) = 3%nat
  /\ run.(a_sleeps) = [3; 3; 3]
  /\ run.(a_state) = st
  /\ exists c b, fst (auth_post (server 3%nat)) = Return (c, b)
       /\ run.(a_result)
          = Return (if reply_is_none b then CAN_RETRY else FAILED).
Proof.
  intros Hall run. subst run.
  destruct (Hall 1%nat) as (c1 & b1 & E1 & N1 & M1).
  destruct (Hall 2%nat) as (c2 & b2 & E2 & N2 & M2).
  destruct (Hall 3%nat) as (c3 & b3 & E3 & N3 & M3).
  unfold _auth. cbn [submit_credentials]. rewrite E1.
  rewrite (proj2 (Z.eqb_neq c1 200) N1), (proj2 (Z.eqb_neq c1 401) M1).
  cbn [orb]. rewrite E2.
  rewrite (proj2 (Z.eqb_neq c2 200) N2), (proj2 (Z.eqb_neq c2 401) M2).
  cbn [orb]. rewrite E3.
  rewrite (proj2 (Z.eqb_neq c3 200) N3), (proj2 (Z.eqb_neq c3 401) M3).
  cbn [orb].
  destruct (reply_is_none b3) eqn:Hb3; cbn;
    rewrite ?(proj2 (Z.eqb_neq c3 200) N3); cbn.
  - split; [reflexivity|]. split; [reflexivity|]. split; [reflexivity|].
    exists c3, b3. rewrite Hb3. split; reflexivity.
  - split; [reflexivity|]. split; [reflexivity|]. split; [reflexivity|].
    exists c3, b3. rewrite Hb3. split; reflexivity.
Qed.

(** After an [_update_auth_info] that does not raise, the user id is a
    string, the web id is the user id followed by "_web", the subscription
    id is "subscriptions/" followed by the web id, and the device id is the
    one from before. *)
Theorem update_auth_info_identity (body : pyval) (s s' : session) :
  _update_auth_info to_b64 body s = (s', false) ->
  exists u : string,
    s'.(_user_id) = PStr u
    /\ s'.(_web_id) = PStr (u +:+ "_web")
    /\ s'.(_sub_id) = PStr ("subscriptions/" +:+ u +:+ "_web")
    /\ s'.(_user_device_id) = s.(_user_device_id).
Proof.
  unfold _update_auth_info.
  destruct (match py_in "accessToken" body with
            | Some true => subscript body "accessToken"
            | Some false => Some body
            | None => None
            end) as [inner|]; [|discriminate].
  destruct (subscript inner "token") as [token|]; [|discriminate].
  destruct (to_b64 token); [|discriminate].
  destruct (subscript inner "userId") as [[| | |u| |]|]; try discriminate.
  destruct (subscript inner "expiresIn") as [expires|]; [|discriminate].
  intros E. injection E as <-. exists u. repeat split.
Qed.

(** A login reply that nests its fields in an object under "accessToken"
    is read like the nested object itself, provided the nested object has
    no "accessToken" entry of its own. *)
Theorem update_auth_info_access_token (outer inner : pydict) (s : session) :
  Dict.get "accessToken" outer = Some (PDict inner) ->
  Dict.mem "accessToken" inner = false ->
  _update_auth_info to_b64 (PDict outer) s
  = _update_auth_info to_b64 (PDict inner) s.
Proof.
  intros Houter Hinner. unfold _update_auth_info. simpl.
  rewrite (dict_mem_of_get _ _ _ Houter), Houter, Hinner. reflexivity.
Qed.

End AuthMore.

Lemma auth_retries_exhausted_witness :
  (@_auth plain_runtime b64_text no_second_factor (always 503 (PDict []))
     sample_backend).(a_sleeps) = [3; 3; 3].
Proof.
  apply (@auth_retries_exhausted plain_runtime b64_text no_second_factor
           (always 503 (PDict [])) sample_backend).
  intros n. exists 503, (Val PNone).
  split; [reflexivity | split; discriminate].
Defined.

Lemma update_auth_info_identity_witness :
  exists u : string,
    (fst (@_update_auth_info b64_text (PDict login_data) blank_session)).(_user_id)
      = PStr u
    /\ (fst (@_update_auth_info b64_text (PDict login_data) blank_session)).(_web_id)
      = PStr (u +:+ "_web")
    /\ (fst (@_update_auth_info b64_text (PDict login_data) blank_session)).(_sub_id)
      = PStr ("subscriptions/" +:+ u +:+ "_web")
    /\ (fst (@_update_auth_info b64_text (PDict login_data) blank_session)).(_user_device_id)
      = blank_session.(_user_device_id).
Proof.
  apply (@update_auth_info_identity b64_text (PDict login_data) blank_session).
  reflexivity.
Defined.

Lemma update_auth_info_access_token_witness :
  @_update_auth_info b64_text
    (PDict [("accessToken", PDict login_data); ("authCompleted", PBool true)])
    blank_session
  = @_update_auth_info b64_text (PDict login_data) blank_session.
Proof.
  apply (@update_auth_info_access_token b64_text
           [("accessToken", PDict login_data); ("authCompleted", PBool true)]
           login_data blank_session); reflexivity.
Defined.

(** ** Login *)

Section LoginFacts.
Context `{PyRuntime}.

(** The loop over the curves is left with success only on a curve where
    [_auth] returned SUCCESS, the token was validated and the pairing
    step passed; the state is the one [_auth] left on that curve. *)
Theorem try_curves_success (curves : list curve_try) (st st' : backend) :
  try_curves curves st = (Return true, st') ->
  exists (pre post : list curve_try) (c : curve_try) (st0 : backend),
    curves = pre ++ c :: post
    /\ c.(try_auth) st0 = (Return SUCCESS, st')
    /\ _validate c.(try_validate_reply) = Return true
    /\ _pair_auth_code c.(try_needs_pairing) c.(try_pair_reply) st'
       = Return true.
Proof.
  revert st. induction curves as [|c curves IH]; intros st Hrun;
    [discriminate|].
  assert (Hlater : try_curves curves (snd (try_auth c st)) = (Return true, st') ->
            exists (pre post : list curve_try) (c0 : curve_try) (st0 : backend),
              c :: curves = pre ++ c0 :: post
              /\ c0.(try_auth) st0 = (Return SUCCESS, st')
              /\ _validate c0.(try_validate_reply) = Return true
              /\ _pair_auth_code c0.(try_needs_pairing) c0.(try_pair_reply) st'
                 = Return true).
  { intros Hrest. destruct (IH _ Hrest) as (pre & post & c0 & st0 & -> & Hrestc).
    exists (c :: pre), post, c0, st0. split; [reflexivity | exact Hrestc]. }
  simpl in Hrun.
  destruct (try_auth c st) as [[[| |]|] st1] eqn:Eauth; simpl in Hlater;
    try discriminate; try (apply Hlater; exact Hrun).
  destruct (_validate (try_validate_reply c)) as [[|]|] eqn:Ev;
    try discriminate; try (apply Hlater; exact Hrun).
  destruct (_pair_auth_code (try_needs_pairing c) (try_pair_reply c) st1)
    as [[|]|] eqn:Ep; try discriminate; try (apply Hlater; exact Hrun).
  injection Hrun as <-.
  exists [], curves, c, st. repeat split; assumption.
Qed.

(** After a curve on which [_auth] returns FAILED no further curve is
    tried. *)
Theorem try_curves_failed_stops (pre post : list curve_try) (c : curve_try)
    (st : backend) :
  (forall s, fst (c.(try_auth) s) = Return FAILED) ->
  try_curves (pre ++ c :: post) st = try_curves (pre ++ [c]) st.
Proof.
  intros Hfail. revert st. induction pre as [|p pre IH]; intros st; simpl.
  - specialize (Hfail st). destruct (try_auth c st) as [r st1].
    simpl in Hfail. subst r. reflexivity.
  - destruct (try_auth p st) as [[[| |]|] st1]; try reflexivity; try apply IH.
    destruct (_validate (try_validate_reply p)) as [[|]|];
      try reflexivity; try apply IH.
    destruct (_pair_auth_code (try_needs_pairing p) (try_pair_reply p) st1)
      as [[|]|]; try reflexivity; apply IH.
Qed.


End LoginFacts.

Lemma try_curves_success_witness :
  exists (pre post : list curve_try) (c : curve_try) (st0 : backend),
    [blocked_curve; good_curve] = pre ++ c :: post
    /\ c.(try_auth) st0
       = (Return SUCCESS,
          snd (@try_curves plain_runtime [blocked_curve; good_curve]
                 sample_backend))
    /\ @_validate plain_runtime c.(try_validate_reply) = Return true
    /\ @_pair_auth_code plain_runtime c.(try_needs_pairing) c.(try_pair_reply)
         (snd (@try_curves plain_runtime [blocked_curve; good_curve]
                 sample_backend))
       = Return true.
Proof.
  apply (@try_curves_success plain_runtime [blocked_curve; good_curve]
           sample_backend). reflexivity.
Defined.

Lemma try_curves_failed_stops_witness :
  @try_curves plain_runtime ([blocked_curve] ++ refused_curve :: [good_curve])
    sample_backend
  = @try_curves plain_runtime ([blocked_curve] ++ [refused_curve])
      sample_backend.
Proof.
  apply (@try_curves_failed_stops plain_runtime). reflexivity.
Defined.


(** A login whose write fails still returns true, and nothing was stored:
    the file is as it was. *)
Lemma login_true_without_file :
  let run := @_login plain_runtime [good_curve] (Return true) OpenFailed None
               (_load_session None sample_backend) in
  fst (fst run) = Return true /\ snd (fst run) = None.
Proof. vm_compute. split; reflexivity. Qed.

(** ** Child statuses and MQTT messages *)

Lemma startswith_needs_slash (s x : string) :
  Py.has_char "/" s = false -> Py.startswith s (x +:+ "/") = false.
Proof.
  unfold Py.startswith. revert s. induction x as [|c x IH]; intros s Hs.
  - change ("" +:+ "/") with "/".
    destruct s as [|a s]; [reflexivity|].
    cbn -[ascii_dec] in *.
    apply orb_false_elim in Hs as [Ha _].
    destruct (ascii_dec "/" a) as [<- | _]; [|reflexivity].
    rewrite Ascii.eqb_refl in Ha. discriminate.
  - change (String c x +:+ "/") with (String c (x +:+ "/")).
    destruct s as [|a s]; [reflexivity|].
    cbn -[ascii_dec String.append] in *.
    apply orb_false_elim in Hs as [_ Hs].
    destruct (ascii_dec c a); [apply IH, Hs | reflexivity].
Qed.

Lemma existsb_all_false {A} (f : A -> bool) (l : list A) :
  (forall x, f x = false) -> existsb f l = false.
Proof.
  intros Hf. induction l as [|x l IH]; simpl; [reflexivity|].
  rewrite Hf, IH. reflexivity.
Qed.

Lemma devices_triples_sublist (resource : string) (d l : pydict) :
  (forall k v, (k, v) ∈ l -> Dict.get k d = Some v) ->
  omap (fun k =>
          (fun v => {| t_device := PStr k; t_resource := resource;
                       t_event := v |}) <$> Dict.get k d)
       (map fst l)
  = map (fun kv => {| t_device := PStr kv.1; t_resource := resource;
                      t_event := kv.2 |}) l.
Proof.
  induction l as [|[k v] l IH]; intros Hall; [reflexivity|].
  assert (IH' := IH (fun k' v' Hin => Hall k' v' (list_elem_of_further _ _ _ Hin))).
  change (map fst ((k, v) :: l)) with (k :: map fst l).
  cbn [omap list_omap].
  rewrite (Hall k v) by (left).
  cbn [fmap option_fmap option_map]. cbn [map fst snd].
  f_equal. exact IH'.
Qed.

(** A "devices" packet without a "states" entry, whose "error" entry is
    absent, null or an object, fans out into one triple per child of its
    "devices" object (the children's ids being distinct), in the order of
    the children, keyed by the child's id and carrying the child's status;
    without a "devices" entry it gives no triple, and with a null one the
    dispatcher raises. *)
Theorem devices_fan_out (resource_types : list string) (response : pydict) :
  Dict.get "resource" response = Some (PStr "devices") ->
  error_loggable response = true ->
  Dict.mem "states" response = false ->
  (forall d : pydict,
      Dict.get "devices" response = Some (PDict d) ->
      NoDup (Dict.keys d) ->
      event_triples resource_types response =
        Some (map (fun kv => {| t_device := PStr kv.1;
                                t_resource := "devices";
                                t_event := kv.2 |}) d))
  /\ (Dict.get "devices" response = None ->
      event_triples resource_types response = Some [])
  /\ (Dict.get "devices" response = Some PNone ->
      event_triples resource_types response = None).
Proof.
  intros Hres Herr Hstates.
  assert (Hbranch : event_triples resource_types response
                    = devices_triples "devices" response).
  { rewrite (event_triples_text _ _ _ Hres Herr), Hstates.
    rewrite (existsb_all_false _ resource_types)
      by (intros x; apply startswith_needs_slash; reflexivity).
    reflexivity. }
  rewrite Hbranch. unfold devices_triples, Dict.get_default.
  split; [|split].
  - intros d Hd Hnd. rewrite Hd. unfold Dict.keys.
    rewrite (devices_triples_sublist "devices" d d)
      by (intros k v; apply dict_get_entry, Hnd).
    reflexivity.
  - intros ->. reflexivity.
  - intros ->. reflexivity.
Qed.

Lemma devices_fan_out_witness :
  event_triples ["cameras"] children_event =
    Some [{| t_device := PStr "CAM01"; t_resource := "devices";
             t_event := PDict [("batteryLevel", PInt 80)] |};
          {| t_device := PStr "CAM02"; t_resource := "devices";
             t_event := PDict [("batteryLevel", PInt 15)] |}].
Proof.
  destruct (devices_fan_out ["cameras"] children_event) as (Hfan & _ & _);
    [reflexivity | reflexivity | reflexivity |].
  apply (Hfan [("CAM01", PDict [("batteryLevel", PInt 80)]);
               ("CAM02", PDict [("batteryLevel", PInt 15)])]);
    [reflexivity | compute_done].
Defined.

Section MqttFacts.
Context `{PyRuntime}.

(** An MQTT message changes nothing but [_requests]: it never marks the
    connection ready, whatever it says.  A message that is not valid JSON
    or that announces a logout changes nothing at all and no exception
    leaves the handler; a message that is not valid UTF-8 changes nothing
    either, but its exception leaves the handler. *)
Theorem mqtt_on_message_frame (payload : mqtt_payload) (st : backend) :
  (exists requests : pydict,
      fst (fst (_mqtt_on_message payload st)) = with_requests requests st)
  /\ (fst (fst (_mqtt_on_message payload st))).(_event_connected)
     = st.(_event_connected)
  /\ ((payload = NotJson
       \/ exists response, payload = Json (PDict response)
            /\ Dict.get "action" response = Some (PStr "logout")) ->
      _mqtt_on_message payload st = (st, [], false))
  /\ (payload = NotUtf8 -> _mqtt_on_message payload st = (st, [], true)).
Proof.
  assert (Hframe : exists requests : pydict,
            fst (fst (_mqtt_on_message payload st)) = with_requests requests st).
  { unfold _mqtt_on_message.
    destruct payload as [| |[| | | | |response]];
      try (exists st.(_requests); destruct st; reflexivity).
    destruct (Py.eq_str _ "logout");
      [exists st.(_requests); destruct st; reflexivity|].
    apply handle_response_frame. }
  split; [exact Hframe|]. split; [|split].
  - destruct Hframe as [requests ->]. reflexivity.
  - intros [-> | (response & -> & Hact)]; [reflexivity|].
    unfold _mqtt_on_message, Dict.get_default. rewrite Hact. reflexivity.
  - intros ->. reflexivity.
Qed.

End MqttFacts.

Lemma mqtt_on_message_frame_witness :
  @_mqtt_on_message plain_runtime NotJson waiting_backend
  = (waiting_backend, [], false)
  /\ @_mqtt_on_message plain_runtime NotUtf8 waiting_backend
     = (waiting_backend, [], true).
Proof.
  split.
  - destruct (@mqtt_on_message_frame plain_runtime NotJson waiting_backend)
      as (_ & _ & Hsame & _).
    apply Hsame. left. reflexivity.
  - destruct (@mqtt_on_message_frame plain_runtime NotUtf8 waiting_backend)
      as (_ & _ & _ & Hraise).
    apply Hraise. reflexivity.
Defined.
